(** * Chat forwarder: a shallow embedding of [chat_forwarder.py]

    The program relays one chat line per HTTP request to a webhook whose URL
    is kept in [config.json].  This development embeds the configuration
    store ([load_config], [save_config]), the first-run prompt
    ([prompt_for_webhook]), the request handler ([forwarder]) and the part of
    [main] that runs before and around the listener, and proves the
    properties the specification states about them.

    Conventions of the embedding.
    - A Python [str] is a Rocq [string]; every character stands for the code
      point of the same number (U+0000 to U+00FF).  Text with code points
      above U+00FF is outside the model.
    - A call either returns a value, raises a Python exception, or leaves the
      model ([Unmodelled]); an [except] clause never catches the last one.
    - Library calls ([json], [requests], [datetime], [input], [os.path]) are
      embedded by what they do on the modelled data; the comments at each
      definition say which library behaviour is meant.
    - The interpreter stops a run that nests calls too deeply
      ([RecursionError]), at a depth that depends on the version and on the
      calls in progress.  The JSON decoder is followed for documents nested
      up to [Json.max_depth] levels, well within every such limit; a deeper
      document leaves the model. *)

From Stdlib Require Import Ascii String NArith.
From stdpp Require Import gmap strings list pretty.

#[local] Arguments String.append : simpl nomatch.

(** ** Exceptions and outcomes *)

Module Py.

(** The exception classes the program can meet.  [JSONDecodeError] and
    [UnicodeDecodeError] derive from [ValueError]; [HTTPError] derives from
    [RequestException]; [SystemExit], which [sys.exit] raises, derives from
    [BaseException] only. *)
Inductive exc_class : Set :=
| OSError
| ValueError
| JSONDecodeError
| UnicodeDecodeError
| AttributeError
| EOFError
| RequestException
| HTTPError
| SystemExit.

Record exc : Set := Exc { exc_cls : exc_class; exc_msg : string }.

(** [isinstance c d]: an exception of class [c] is an instance of class [d]. *)
Definition isinstance (c d : exc_class) : bool :=
  match c, d with
  | OSError, OSError => true
  | ValueError, ValueError => true
  | JSONDecodeError, (JSONDecodeError | ValueError) => true
  | UnicodeDecodeError, (UnicodeDecodeError | ValueError) => true
  | AttributeError, AttributeError => true
  | EOFError, EOFError => true
  | RequestException, RequestException => true
  | HTTPError, (HTTPError | RequestException) => true
  | _, _ => false
  end.

(** [except (d1, d2, ...)] catches [e]. *)
Definition caught_by (ds : list exc_class) (e : exc) : bool :=
  existsb (isinstance (exc_cls e)) ds.

(** [str(e)]. *)
Definition str (e : exc) : string := exc_msg e.

Inductive outcome (A : Type) : Type :=
| Returns (a : A)
| Raises (e : exc)
| Unmodelled.
Arguments Returns {A} a.
Arguments Raises {A} e.
Arguments Unmodelled {A}.

Definition obind {A B} (m : outcome A) (k : A -> outcome B) : outcome B :=
  match m with
  | Returns a => k a
  | Raises e => Raises e
  | Unmodelled => Unmodelled
  end.

Definition raise {A} (c : exc_class) (msg : string) : outcome A :=
  Raises (Exc c msg).

End Py.
Import Py.

Notation "'let*' p ':=' m 'in' k" := (obind m (fun p => k))
  (at level 10, p pattern, m at level 100, k at level 200,
   format "'[v' 'let*'  p  ':='  m  'in' '/' k ']'").

(** ** Characters *)

Module Chr.

Definition code (c : ascii) : N := N_of_ascii c.

Definition is_digit (c : ascii) : bool := (48 <=? code c)%N && (code c <=? 57)%N.

Definition is_digit19 (c : ascii) : bool := (49 <=? code c)%N && (code c <=? 57)%N.

(** Value of a hexadecimal digit, either case. *)
Definition hex_value (c : ascii) : option N :=
  let n := code c in
  if (48 <=? n)%N && (n <=? 57)%N then Some (n - 48)%N
  else if (97 <=? n)%N && (n <=? 102)%N then Some (n - 87)%N
  else if (65 <=? n)%N && (n <=? 70)%N then Some (n - 55)%N
  else None.

(** Lower-case hexadecimal digit of a number below 16, as ['{:x}'] prints. *)
Definition hex_digit (n : N) : ascii :=
  if (n <? 10)%N then ascii_of_N (48 + n) else ascii_of_N (87 + n).

(** The characters [str.isspace] accepts, among U+0000..U+00FF. *)
Definition isspace (c : ascii) : bool :=
  let n := code c in
  ((9 <=? n)%N && (n <=? 13)%N) || ((28 <=? n)%N && (n <=? 32)%N)
  || (n =? 133)%N || (n =? 160)%N.

End Chr.

(** ** Strings *)

Module Str.

(** [s.startswith(p)]. *)
Fixpoint startswith (s p : string) {struct p} : bool :=
  match p with
  | EmptyString => true
  | String b p' =>
      match s with
      | EmptyString => false
      | String a s' => if Ascii.eqb a b then startswith s' p' else false
      end
  end.

(** [s.lstrip()]. *)
Fixpoint lstrip (s : string) : string :=
  match s with
  | EmptyString => EmptyString
  | String c s' => if Chr.isspace c then lstrip s' else s
  end.

(** [s.rstrip()]: a character is kept when something that is kept follows it
    or it is not white space. *)
Fixpoint rstrip (s : string) : string :=
  match s with
  | EmptyString => EmptyString
  | String c s' =>
      match rstrip s' with
      | EmptyString => if Chr.isspace c then EmptyString else String c EmptyString
      | r => String c r
      end
  end.

(** [s.strip()]. *)
Definition strip (s : string) : string := rstrip (lstrip s).

(** [s] consists of white space only. *)
Fixpoint all_space (s : string) : bool :=
  match s with
  | EmptyString => true
  | String c s' => Chr.isspace c && all_space s'
  end.

(** The first and the last character of a string, if any. *)
Definition first_char (s : string) : option ascii :=
  match s with
  | EmptyString => None
  | String c _ => Some c
  end.

Fixpoint last_char (s : string) : option ascii :=
  match s with
  | EmptyString => None
  | String c EmptyString => Some c
  | String _ s' => last_char s'
  end.

End Str.

(** ** JSON: the part of Python's [json] module the program uses *)

Module Json.

(** A decoded document.  A number keeps its lexeme (the program never
    computes with one); an object keeps its members in document order, and
    a later member with the same key wins, as in the [dict] Python builds. *)
#[warnings="-register-all"]
Inductive value : Type :=
| JNull
| JBool (b : bool)
| JNumber (lexeme : string)
| JString (s : string)
| JArray (items : list value)
| JObject (members : list (string * value)).

(** *** Encoding, [ensure_ascii=True] *)

(** The double quote. *)
Definition dquote : ascii := ascii_of_N 34.

(** The escape of one character: the two-character escapes of [ESCAPE_DCT],
    [\u00xx] for every other character outside [' '..'~'], and the
    character itself otherwise. *)
Definition escape_char (c : ascii) : string :=
  let n := Chr.code c in
  if (n =? 34)%N then String "\" (String dquote EmptyString)
  else if (n =? 92)%N then "\\"
  else if (n =? 10)%N then "\n"
  else if (n =? 13)%N then "\r"
  else if (n =? 9)%N then "\t"
  else if (n =? 8)%N then "\b"
  else if (n =? 12)%N then "\f"
  else if (n <? 32)%N || (126 <? n)%N then
    String "\" (String "u" (String "0" (String "0"
      (String (Chr.hex_digit (n / 16)) (String (Chr.hex_digit (n mod 16)) EmptyString)))))
  else String c EmptyString.

Fixpoint escape (s : string) : string :=
  match s with
  | EmptyString => EmptyString
  | String c s' => escape_char c +:+ escape s'
  end.

(** [encode_basestring_ascii(s)]: the quoted, escaped string. *)
Definition encode_basestring_ascii (s : string) : string :=
  String dquote (escape s +:+ String dquote EmptyString).

Definition newline : string := String (ascii_of_N 10) EmptyString.

(** [json.dumps({k: v}, indent=2)] for one string member: an opening brace,
    a line with the member indented by two spaces, a closing brace. *)
Definition dumps_indent2_member (k v : string) : string :=
  "{" +:+ newline +:+ "  " +:+ encode_basestring_ascii k +:+ ": "
      +:+ encode_basestring_ascii v +:+ newline +:+ "}".

(** *** Decoding *)

Definition decode_error {A} : outcome A := raise JSONDecodeError "invalid JSON".

(** JSON white space: space, tab, line feed, carriage return. *)
Definition is_ws (c : ascii) : bool :=
  let n := Chr.code c in (n =? 32)%N || (n =? 9)%N || (n =? 10)%N || (n =? 13)%N.

Fixpoint skip_ws (s : string) : string :=
  match s with
  | String c s' => if is_ws c then skip_ws s' else s
  | EmptyString => EmptyString
  end.

(** The character a one-letter escape stands for ([BACKSLASH]). *)
Definition unescape (c : ascii) : option ascii :=
  let n := Chr.code c in
  if (n =? 34)%N then Some c
  else if (n =? 92)%N then Some c
  else if (n =? 47)%N then Some c
  else if (n =? 98)%N then Some (ascii_of_N 8)
  else if (n =? 102)%N then Some (ascii_of_N 12)
  else if (n =? 110)%N then Some (ascii_of_N 10)
  else if (n =? 114)%N then Some (ascii_of_N 13)
  else if (n =? 116)%N then Some (ascii_of_N 9)
  else None.

Definition hex4 (a b c d : ascii) : option N :=
  match Chr.hex_value a, Chr.hex_value b, Chr.hex_value c, Chr.hex_value d with
  | Some x, Some y, Some z, Some w => Some (((x * 16 + y) * 16 + z) * 16 + w)%N
  | _, _, _, _ => None
  end.

Definition cons_char (c : ascii) (r : outcome (string * string)) : outcome (string * string) :=
  let* (str, rest) := r in Returns (String c str, rest).

(** [scanstring], strict: [s] starts just after the opening quote; the
    result is the decoded string and the text after the closing quote.  An
    escape naming a code point above U+00FF leaves the model. *)
Fixpoint scanstring (s : string) : outcome (string * string) :=
  match s with
  | EmptyString => decode_error
  | String c s' =>
      if (Chr.code c =? 34)%N then Returns (EmptyString, s')
      else if (Chr.code c =? 92)%N then
        match s' with
        | EmptyString => decode_error
        | String e s'' =>
            if (Chr.code e =? 117)%N then
              match s'' with
              | String h1 (String h2 (String h3 (String h4 r))) =>
                  match hex4 h1 h2 h3 h4 with
                  | Some n =>
                      if (n <? 256)%N then cons_char (ascii_of_N n) (scanstring r)
                      else Unmodelled
                  | None => decode_error
                  end
              | _ => decode_error
              end
            else
              match unescape e with
              | Some ch => cons_char ch (scanstring s'')
              | None => decode_error
              end
        end
      else if (Chr.code c <? 32)%N then decode_error
      else cons_char c (scanstring s')
  end.

(** The digits at the head of [s], and what follows them. *)
Fixpoint span_digits (s : string) : string * string :=
  match s with
  | String c s' =>
      if Chr.is_digit c then let '(ds, r) := span_digits s' in (String c ds, r)
      else (EmptyString, s)
  | EmptyString => (EmptyString, EmptyString)
  end.

(** The integer part of [NUMBER_RE] without its sign: [0] or a digit
    sequence not starting with 0. *)
Definition match_int (s : string) : option (string * string) :=
  match s with
  | String c s' =>
      if (Chr.code c =? 48)%N then Some (String c EmptyString, s')
      else if Chr.is_digit19 c then
        let '(ds, r) := span_digits s' in Some (String c ds, r)
      else None
  | EmptyString => None
  end.

(** An optional group [lead digit+] where [lead] has been consumed already:
    it matches when at least one digit follows. *)
Definition match_digits1 (s : string) : option (string * string) :=
  match span_digits s with
  | (EmptyString, _) => None
  | (ds, r) => Some (ds, r)
  end.

Definition match_frac (s : string) : string * string :=
  match s with
  | String c s' =>
      if (Chr.code c =? 46)%N then
        match match_digits1 s' with
        | Some (ds, r) => (String c ds, r)
        | None => (EmptyString, s)
        end
      else (EmptyString, s)
  | EmptyString => (EmptyString, s)
  end.

Definition is_sign (c : ascii) : bool := (Chr.code c =? 43)%N || (Chr.code c =? 45)%N.

Definition match_exp (s : string) : string * string :=
  match s with
  | String c s' =>
      if (Chr.code c =? 101)%N || (Chr.code c =? 69)%N then
        match s' with
        | String g s'' =>
            if is_sign g then
              match match_digits1 s'' with
              | Some (ds, r) => (String c (String g ds), r)
              | None => (EmptyString, s)
              end
            else
              match match_digits1 s' with
              | Some (ds, r) => (String c ds, r)
              | None => (EmptyString, s)
              end
        | EmptyString => (EmptyString, s)
        end
      else (EmptyString, s)
  | EmptyString => (EmptyString, s)
  end.

(** [NUMBER_RE.match]: the lexeme of the number at the head of [s]. *)
Definition match_number (s : string) : option (string * string) :=
  let '(sign, s1) :=
    match s with
    | String c s' => if (Chr.code c =? 45)%N then (String c EmptyString, s') else (EmptyString, s)
    | EmptyString => (EmptyString, s)
    end in
  match match_int s1 with
  | Some (int, s2) =>
      let '(frac, s3) := match_frac s2 in
      let '(exp, s4) := match_exp s3 in
      Some (sign +:+ int +:+ frac +:+ exp, s4)
  | None => None
  end.

(** [s[idx:idx+len(lit)] == lit]: the text after [lit] when [s] starts with it. *)
Fixpoint after (lit s : string) {struct lit} : option string :=
  match lit with
  | EmptyString => Some s
  | String b lit' =>
      match s with
      | String a s' => if Ascii.eqb a b then after lit' s' else None
      | EmptyString => None
      end
  end.

(** The number of digits in [s]. *)
Fixpoint count_digits (s : string) : N :=
  match s with
  | EmptyString => 0%N
  | String c s' => ((if Chr.is_digit c then 1 else 0) + count_digits s')%N
  end.

(** The lexeme has neither fraction nor exponent: a sign and digits only. *)
Fixpoint is_int_lexeme (s : string) : bool :=
  match s with
  | EmptyString => true
  | String c s' => (Chr.is_digit c || (Chr.code c =? 45)%N) && is_int_lexeme s'
  end.

(** [int(lexeme)] refuses more than 4300 digits
    ([sys.int_info.default_max_str_digits]); a lexeme with a fraction or an
    exponent goes to [float] and has no such limit. *)
Definition int_too_long (lexeme : string) : bool :=
  is_int_lexeme lexeme && (4300 <? count_digits lexeme)%N.

(** The number [lexeme] as [_scan_once] converts it. *)
Definition number_value (lexeme rest : string) : outcome (value * string) :=
  if int_too_long lexeme then
    raise ValueError "Exceeds the limit (4300 digits) for integer string conversion"
  else Returns (JNumber lexeme, rest).

(** The scalars of [_scan_once], in its order: the three literals, a number,
    then the three constants. *)
Definition scan_scalar (s : string) : outcome (value * string) :=
  match after "null" s with Some r => Returns (JNull, r) | None =>
  match after "true" s with Some r => Returns (JBool true, r) | None =>
  match after "false" s with Some r => Returns (JBool false, r) | None =>
  match match_number s with Some (lx, r) => number_value lx r | None =>
  match after "NaN" s with Some r => Returns (JNumber "NaN", r) | None =>
  match after "Infinity" s with Some r => Returns (JNumber "Infinity", r) | None =>
  match after "-Infinity" s with Some r => Returns (JNumber "-Infinity", r) | None =>
  decode_error
  end end end end end end end.

(** The number of containers (arrays, objects) the decoder is followed
    into, one inside the other. *)
Definition max_depth : nat := 100.

(** [_scan_once], [JSONObject] and [JSONArray].  Entering an array or an
    object is a nested call for the interpreter ([Py_EnterRecursiveCall]):
    [depth] is the number of containers that may still be entered, and a
    document that needs more leaves the model.  The recursion itself is on
    a counter that bounds the number of calls; [loads] starts it above
    twice the length of the text, which is never used up ([scan_fuel]
    below).  [object_members] starts just after the opening quote of a key,
    [array_items] at the first character of an item. *)
Fixpoint scan_once (fuel depth : nat) (s : string) {struct fuel}
  : outcome (value * string) :=
  match fuel with
  | O => Unmodelled
  | S fuel' =>
      match s with
      | String c r =>
          if (Chr.code c =? 34)%N then
            let* (str, r') := scanstring r in Returns (JString str, r')
          else if (Chr.code c =? 123)%N then
            match depth with
            | O => Unmodelled
            | S depth' =>
                match skip_ws r with
                | String d r' =>
                    if (Chr.code d =? 125)%N then Returns (JObject [], r')
                    else if (Chr.code d =? 34)%N then
                      let* (ms, r'') := object_members fuel' depth' r' in
                      Returns (JObject ms, r'')
                    else decode_error
                | EmptyString => decode_error
                end
            end
          else if (Chr.code c =? 91)%N then
            match depth with
            | O => Unmodelled
            | S depth' =>
                match skip_ws r with
                | String d r' =>
                    if (Chr.code d =? 93)%N then Returns (JArray [], r')
                    else
                      let* (vs, r'') := array_items fuel' depth' (String d r') in
                      Returns (JArray vs, r'')
                | EmptyString => decode_error
                end
            end
          else scan_scalar s
      | EmptyString => decode_error
      end
  end
with object_members (fuel depth : nat) (s : string) {struct fuel}
  : outcome (list (string * value) * string) :=
  match fuel with
  | O => Unmodelled
  | S fuel' =>
      let* (key, r) := scanstring s in
      match skip_ws r with
      | String c r1 =>
          if (Chr.code c =? 58)%N then
            let* (v, r2) := scan_once fuel' depth (skip_ws r1) in
            match skip_ws r2 with
            | String d r3 =>
                if (Chr.code d =? 125)%N then Returns ([(key, v)], r3)
                else if (Chr.code d =? 44)%N then
                  match skip_ws r3 with
                  | String q r4 =>
                      if (Chr.code q =? 34)%N then
                        let* (ms, r5) := object_members fuel' depth r4 in
                        Returns ((key, v) :: ms, r5)
                      else decode_error
                  | EmptyString => decode_error
                  end
                else decode_error
            | EmptyString => decode_error
            end
          else decode_error
      | EmptyString => decode_error
      end
  end
with array_items (fuel depth : nat) (s : string) {struct fuel}
  : outcome (list value * string) :=
  match fuel with
  | O => Unmodelled
  | S fuel' =>
      let* (v, r) := scan_once fuel' depth s in
      match skip_ws r with
      | String d r1 =>
          if (Chr.code d =? 93)%N then Returns ([v], r1)
          else if (Chr.code d =? 44)%N then
            let* (vs, r2) := array_items fuel' depth (skip_ws r1) in
            Returns (v :: vs, r2)
          else decode_error
      | EmptyString => decode_error
      end
  end.

(** [json.loads(s)]: one value, white space allowed around it, nothing else. *)
Definition loads (s : string) : outcome value :=
  let* (v, r) := scan_once (S (2 * String.length s)) max_depth (skip_ws s) in
  match skip_ws r with
  | EmptyString => Returns v
  | String _ _ => decode_error
  end.

(** [dict(pairs).get(key)]: the value of the last member named [key]. *)
Fixpoint members_get (key : string) (ms : list (string * value)) : option value :=
  match ms with
  | [] => None
  | (k, v) :: ms' =>
      match members_get key ms' with
      | Some v' => Some v'
      | None => if String.eqb k key then Some v else None
      end
  end.

End Json.
Import Json.

(** ** The world the program runs in *)

(** What [open] finds at a path that exists. *)
Inductive file : Type :=
| Inaccessible            (* [open] fails with [OSError]: no permission, a directory *)
| Undecodable             (* a file whose bytes are not text in the default encoding *)
| Text (content : string).

Record datetime : Set := { hour : nat; minute : nat }.

Record response : Set := { status_code : N; reason : string; resp_url : string }.

(** What [requests.post] meets: a response, or a failure to get one
    (connection refused, time-out, bad URL) with the text of the exception. *)
Inductive post_result : Type :=
| Answered (r : response)
| Failed (msg : string).

(** A span of console text and its colour. *)
Definition span : Type := string * string.

(** The observable actions, in the order they happen. *)
Inductive event : Type :=
| EvPrint (text : list span)
| EvPrompt (text : string)
| EvWrite (path content : string)
| EvPost (url : string) (body : Json.value)
| EvMinimize (hwnd : N)
| EvServe (host : string) (port : Z)
| EvLogError (msg : string).

Record world : Type := World {
  files : gmap string file;          (* the working directory *)
  now : datetime;                    (* the local time *)
  remote : string -> Json.value -> post_result;  (* how a POST to a URL ends *)
  stdin : list string;               (* the lines the operator will type *)
  console_window : option N;         (* [Some hwnd] on win32 *)
  bind_error : option string;        (* why the listener cannot bind, if so *)
  trace : list event                 (* the actions so far *)
}.

Definition set_files (fs : gmap string file) (w : world) : world :=
  World fs (now w) (remote w) (stdin w) (console_window w) (bind_error w) (trace w).

Definition set_stdin (ls : list string) (w : world) : world :=
  World (files w) (now w) (remote w) ls (console_window w) (bind_error w) (trace w).

Definition log (e : event) (w : world) : world :=
  World (files w) (now w) (remote w) (stdin w) (console_window w) (bind_error w)
        (trace w ++ [e]).

(** ** Computations: state and exceptions *)

Definition M (A : Type) : Type := world -> outcome A * world.

Definition ret {A} (a : A) : M A := fun w => (Returns a, w).

Definition bind {A B} (m : M A) (k : A -> M B) : M B :=
  fun w =>
    match m w with
    | (Returns a, w') => k a w'
    | (Raises e, w') => (Raises e, w')
    | (Unmodelled, w') => (Unmodelled, w')
    end.

Definition lift {A} (o : outcome A) : M A := fun w => (o, w).

Definition throw {A} (c : exc_class) (msg : string) : M A := lift (raise c msg).

(** [try: m  except ds as e: h e]. *)
Definition try_except {A} (m : M A) (ds : list exc_class) (h : exc -> M A) : M A :=
  fun w =>
    match m w with
    | (Raises e, w') => if caught_by ds e then h e w' else (Raises e, w')
    | r => r
    end.

(** [try: m  finally: f]. *)
Definition try_finally {A} (m : M A) (f : M unit) : M A :=
  fun w =>
    match m w with
    | (Returns a, w') => bind f (fun _ => ret a) w'
    | (Raises e, w') => bind f (fun _ => lift (Raises e)) w'
    | (Unmodelled, w') => (Unmodelled, w')
    end.

Definition emit (e : event) : M unit := fun w => (Returns tt, log e w).

Notation "x <- m ;; k" := (bind m (fun x => k))
  (at level 62, m at next level, right associativity).
Notation "m ;;; k" := (bind m (fun _ => k))
  (at level 62, right associativity).

(** The classes that derive from [Exception]: all but [SystemExit]. *)
Definition Exception : list exc_class :=
  [OSError; ValueError; JSONDecodeError; UnicodeDecodeError; AttributeError;
   EOFError; RequestException; HTTPError].

(** ** Library calls *)

(** [print(text)]. *)
Definition print (text : list span) : M unit := emit (EvPrint text).

(** [input(prompt)]: shows the prompt and returns the next line typed,
    without its line end; [EOFError] when the input is exhausted. *)
Definition input (prompt : string) : M string :=
  emit (EvPrompt prompt) ;;;
  fun w =>
    match stdin w with
    | line :: rest => (Returns line, set_stdin rest w)
    | [] => (raise EOFError "EOF when reading a line", w)
    end.

(** [os.path.exists(path)]. *)
Definition path_exists (path : string) : M bool :=
  fun w => (Returns (bool_decide (is_Some (files w !! path))), w).

(** [with open(path, "r") as f: f.read()]. *)
Definition read_text (path : string) : M string :=
  fun w =>
    match files w !! path with
    | None => (raise OSError "No such file or directory", w)
    | Some Inaccessible => (raise OSError "Permission denied", w)
    | Some Undecodable => (raise UnicodeDecodeError "invalid start byte", w)
    | Some (Text c) => (Returns c, w)
    end.

(** [with open(path, "w") as f: f.write(content)]. *)
Definition write_text (path content : string) : M unit :=
  fun w =>
    match files w !! path with
    | Some Inaccessible => (raise OSError "Permission denied", w)
    | _ => (Returns tt, log (EvWrite path content) (set_files (<[path := Text content]> (files w)) w))
    end.

(** [data.get(key, default)]: only a [dict] has the method. *)
Definition dict_get (data : Json.value) (key : string) (dflt : Json.value)
  : outcome Json.value :=
  match data with
  | JObject ms => Returns (default dflt (members_get key ms))
  | _ => raise AttributeError "object has no attribute 'get'"
  end.

(** [datetime.now()]. *)
Definition datetime_now : M datetime := fun w => (Returns (now w), w).

Definition digit (n : nat) : ascii := ascii_of_nat (48 + n).

(** ['%02d'] of a number below 100. *)
Definition pad2 (n : nat) : string :=
  String (digit (n / 10)) (String (digit (n mod 10)) EmptyString).

(** [t.strftime("%H:%M")]. *)
Definition strftime_HM (t : datetime) : string :=
  pad2 (hour t) +:+ ":" +:+ pad2 (minute t).

(** [requests.post(url, json=body)]. *)
Definition requests_post (url : string) (body : Json.value) : M response :=
  emit (EvPost url body) ;;;
  fun w =>
    match remote w url body with
    | Answered r => (Returns r, w)
    | Failed msg => (raise RequestException msg, w)
    end.

(** [str(n)] for a status code: its decimal digits. *)
Definition decimal (n : N) : string := pretty n.

(** The message [raise_for_status] builds: empty unless the status is from
    400 to 599. *)
Definition http_error_msg (r : response) : string :=
  if (400 <=? status_code r)%N && (status_code r <? 500)%N then
    decimal (status_code r) +:+ " Client Error: " +:+ reason r +:+ " for url: " +:+ resp_url r
  else if (500 <=? status_code r)%N && (status_code r <? 600)%N then
    decimal (status_code r) +:+ " Server Error: " +:+ reason r +:+ " for url: " +:+ resp_url r
  else EmptyString.

(** [resp.raise_for_status()]: [HTTPError] when there is a message. *)
Definition raise_for_status (r : response) : M unit :=
  match http_error_msg r with
  | EmptyString => ret tt
  | msg => throw HTTPError msg
  end.

(** ** The program *)

Definition CONFIG_FILE : string := "config.json".
Definition WEBHOOK_PREFIX : string := "https://discord.com/api/webhooks/".

(** [colored(part, color)] for each pair, joined: the spans in order. *)
Definition colored_text (text_parts colors : list string) : list span :=
  zip text_parts colors.

Definition load_config : M Json.value :=
  found <- path_exists CONFIG_FILE ;;
  r <- (if found : bool then
          try_except
            (text <- read_text CONFIG_FILE ;;
             data <- lift (Json.loads text) ;;
             v <- lift (dict_get data "discord_webhook_url" (JString EmptyString)) ;;
             ret (Some v))
            [ValueError; JSONDecodeError]
            (fun _ => ret None)
        else ret None) ;;
  match r with
  | Some v => ret v
  | None => ret (JString EmptyString)
  end.

Definition save_config (url : string) : M unit :=
  write_text CONFIG_FILE (Json.dumps_indent2_member "discord_webhook_url" url).

(** The [while True] loop of [prompt_for_webhook].  Every round reads a
    line, so the loop ends within one round more than there are lines; the
    counter is that bound. *)
Fixpoint prompt_loop (rounds : nat) : M string :=
  match rounds with
  | O => lift Unmodelled
  | S rounds' =>
      url <- (line <- input "          Enter your Discord webhook URL: " ;;
              ret (Str.strip line)) ;;
      if Str.startswith url WEBHOOK_PREFIX then
        save_config url ;;;
        print (colored_text ["INFO"; ":     Webhook URL saved to "; CONFIG_FILE; "."]
                            ["green"; "light_grey"; "light_magenta"; "light_grey"]) ;;;
        ret url
      else
        print (colored_text ["WARNING"; ":  Invalid URL. Must start with "; WEBHOOK_PREFIX;
                             "..."; " Please try again."]
                            ["yellow"; "light_grey"; "light_magenta"; "light_magenta";
                             "light_grey"]) ;;;
        prompt_loop rounds'
  end.

Definition prompt_for_webhook : M string :=
  print (colored_text ["WARNING"; ":  No valid Discord webhook URL found in config."]
                      ["yellow"; "light_grey"]) ;;;
  fun w => prompt_loop (S (length (stdin w))) w.

Definition not_configured : gmap string string :=
  {[ "status" := "error"; "detail" := "Discord webhook not configured correctly." ]}.

Definition error_response (detail : string) : gmap string string :=
  {[ "status" := "error"; "detail" := detail ]}.

Definition forwarded : gmap string string := {[ "status" := "forwarded" ]}.

(** The text sent for a chat line. *)
Definition content_of (timestamp sender message : string) : string :=
  timestamp +:+ " [**" +:+ sender +:+ "**]: `" +:+ message +:+ "`".

(** The handler of [GET /webhook].  [url.startswith] exists only when the
    loaded value is a [str]. *)
Definition forwarder (sender message : string) : M (gmap string string) :=
  url <- load_config ;;
  match url with
  | JString url =>
      if negb (Str.startswith url WEBHOOK_PREFIX) then ret not_configured
      else
        timestamp <- (t <- datetime_now ;; ret (strftime_HM t)) ;;
        let content := content_of timestamp sender message in
        failure <- try_except
                     (resp <- requests_post url (JObject [("content", JString content)]) ;;
                      raise_for_status resp ;;;
                      ret None)
                     Exception
                     (fun e => ret (Some (error_response (Py.str e)))) ;;
        match failure with
        | Some r => ret r
        | None => ret forwarded
        end
  | _ => throw AttributeError "object has no attribute 'startswith'"
  end.

(** [minimize_console()]: on win32, minimises the console window if there is one. *)
Definition minimize_console : M unit :=
  fun w =>
    match console_window w with
    | Some hwnd => if (hwnd =? 0)%N then (Returns tt, w) else emit (EvMinimize hwnd) w
    | None => (Returns tt, w)
    end.

(** [uvicorn.run(app, host, port)]: serves until it is stopped.  When the
    listener cannot bind, uvicorn catches the [OSError] itself, logs it as
    an error and ends with [sys.exit(1)]. *)
Definition uvicorn_run (host : string) (port : Z) : M unit :=
  fun w =>
    match bind_error w with
    | Some msg => (emit (EvLogError msg) ;;; throw SystemExit "1") w
    | None => emit (EvServe host port) w
    end.

Record args : Set := { host : string; port : Z; minimized : bool }.

(** [main()] from the parsed arguments on (the banner printed before them
    is left out). *)
Definition main (a : args) : M unit :=
  (if minimized a then minimize_console else ret tt) ;;;
  webhook_url <- load_config ;;
  (match webhook_url with
   | JString url =>
       if negb (Str.startswith url WEBHOOK_PREFIX) then
         webhook_url <- prompt_for_webhook ;; ret tt
       else ret tt
   | _ => throw AttributeError "object has no attribute 'startswith'"
   end) ;;;
  print (colored_text ["INFO"; ":     Starting chat forwarder..."] ["green"; "light_grey"]) ;;;
  try_finally
    (try_except
       (uvicorn_run (host a) (port a))
       [OSError]
       (fun e => print (colored_text ["ERROR"; ":    "; Py.str e]
                                     ["red"; "light_grey"; "light_grey"])))
    (_ <- input "Press Enter to exit..." ;; ret tt).

(** ** Summaries used in the statements *)

(** What [load_config] makes of the state of the configuration file
    ([load_config_eq] below). *)
Definition stored (f : option file) : outcome Json.value :=
  match f with
  | None => Returns (JString EmptyString)
  | Some Inaccessible => raise OSError "Permission denied"
  | Some Undecodable => Returns (JString EmptyString)
  | Some (Text c) =>
      match loads c with
      | Returns data => dict_get data "discord_webhook_url" (JString EmptyString)
      | Raises _ => Returns (JString EmptyString)
      | Unmodelled => Unmodelled
      end
  end.

(** The body the handler posts at time [t]. *)
Definition body_of (t : datetime) (sender message : string) : Json.value :=
  JObject [("content", JString (content_of (strftime_HM t) sender message))].

(** What the handler answers to each end of the POST ([forwarder_posts] below). *)
Definition reply_to (p : post_result) : gmap string string :=
  match p with
  | Failed msg => error_response msg
  | Answered r =>
      match http_error_msg r with
      | EmptyString => forwarded
      | msg => error_response msg
      end
  end.

(** The two messages of the prompt. *)
Definition rejected_print : list span :=
  [("WARNING", "yellow"); (":  Invalid URL. Must start with ", "light_grey");
   (WEBHOOK_PREFIX, "light_magenta"); ("...", "light_magenta");
   (" Please try again.", "light_grey")].

Definition accepted_print : list span :=
  [("INFO", "green"); (":     Webhook URL saved to ", "light_grey");
   (CONFIG_FILE, "light_magenta"); (".", "light_grey")].

(** The document [save_config] writes for [url]. *)
Definition saved_doc (url : string) : string :=
  Json.dumps_indent2_member "discord_webhook_url" url.

(** The events of one round of the prompt that rejects its line. *)
Definition rejected_round : list event :=
  [EvPrompt "          Enter your Discord webhook URL: "; EvPrint rejected_print].

(** The events of the round that accepts [url]. *)
Definition accepted_round (url : string) : list event :=
  [EvPrompt "          Enter your Discord webhook URL: ";
   EvWrite CONFIG_FILE (saved_doc url);
   EvPrint accepted_print].

(** A typed line the prompt turns down, and one it takes. *)
Definition rejected (line : string) : Prop :=
  Str.startswith (Str.strip line) WEBHOOK_PREFIX = false.

Definition accepted (line : string) : Prop :=
  Str.startswith (Str.strip line) WEBHOOK_PREFIX = true.

(** The events of a whole run of the prompt: the warning, a round for every
    line turned down, the round that accepts [url]. *)
Definition prompt_events (skipped : list string) (url : string) : list event :=
  [EvPrint [("WARNING", "yellow");
            (":  No valid Discord webhook URL found in config.", "light_grey")]]
  ++ concat (map (fun _ => rejected_round) skipped)
  ++ accepted_round url.

(** The events before [main] looks at the configuration. *)
Definition minimize_events (a : args) (w : world) : list event :=
  if minimized a then
    match console_window w with
    | Some hwnd => if (hwnd =? 0)%N then [] else [EvMinimize hwnd]
    | None => []
    end
  else [].

(** The events of [main] once the configuration is in place, when the
    listener binds. *)
Definition serving_events (a : args) : list event :=
  [EvPrint [("INFO", "green"); (":     Starting chat forwarder...", "light_grey")];
   EvServe (host a) (port a);
   EvPrompt "Press Enter to exit..."].

(** ** Sample worlds *)

(** A world at 14:07 with the given files, the given end of every POST, and
    the given lines waiting on the console. *)
Definition sample (fs : gmap string file) (p : post_result) (lines : list string) : world :=
  World fs {| hour := 14; minute := 7 |} (fun _ _ => p) lines None None [].

Definition sample_url : string := "https://discord.com/api/webhooks/123/abc".

Definition configured : gmap string file := {[ CONFIG_FILE := Text (saved_doc sample_url) ]}.

Definition answer (code : N) (why : string) : post_result :=
  Answered {| status_code := code; reason := why; resp_url := sample_url |}.

Definition default_args : args := {| host := "127.0.0.1"; port := 8000; minimized := false |}.

(** ** Definitions for the further properties *)

(** Printable ASCII, or the line feed [indent] puts between the lines. *)
Definition plain_char (c : ascii) : bool :=
  ((32 <=? Chr.code c)%N && (Chr.code c <=? 126)%N) || (Chr.code c =? 10)%N.

(** Every character of [s] passes [p]. *)
Fixpoint all_chars (p : ascii -> bool) (s : string) : bool :=
  match s with
  | EmptyString => true
  | String c s' => p c && all_chars p s'
  end.

Definition key_of (m : string * Json.value) : string := fst m.

(** Sample documents: an object without the key, and one with the key twice
    and another member. *)
Definition doc_no_key : string :=
  "{" +:+ encode_basestring_ascii "port" +:+ ": 8000}".

Definition doc_two_keys : string :=
  "{" +:+ encode_basestring_ascii "discord_webhook_url" +:+ ": null, "
      +:+ encode_basestring_ascii "discord_webhook_url" +:+ ": "
      +:+ encode_basestring_ascii sample_url +:+ ", "
      +:+ encode_basestring_ascii "port" +:+ ": 8000}".

(** An object whose [discord_webhook_url] is [null]. *)
Definition doc_null_url : string :=
  "{" +:+ encode_basestring_ascii "discord_webhook_url" +:+ ": null}".

(** Not white space. *)
Definition nonspace (c : ascii) : bool := negb (Chr.isspace c).

(** The events of [main] once the configuration is in place, when the
    listener fails to bind with the message [msg]. *)
Definition failed_events (msg : string) : list event :=
  [EvPrint [("INFO", "green"); (":     Starting chat forwarder...", "light_grey")];
   EvLogError msg;
   EvPrompt "Press Enter to exit..."].

(** [c * n]: the character [c], [n] times. *)
Fixpoint replicate_char (n : nat) (c : ascii) : string :=
  match n with
  | O => EmptyString
  | S n' => String c (replicate_char n' c)
  end.

(** * Properties *)

(** ** Strings *)

Section StringFacts.

Lemma append_empty_r (s : string) : s +:+ EmptyString = s.
Proof. induction s as [|c s IH]; simpl; [reflexivity | now rewrite IH]. Qed.

Lemma append_assoc (a b c : string) : (a +:+ b) +:+ c = a +:+ (b +:+ c).
Proof. induction a as [|x a IH]; simpl; [reflexivity | now rewrite IH]. Qed.

Lemma length_append (a b : string) :
  String.length (a +:+ b) = String.length a + String.length b.
Proof. induction a as [|x a IH]; simpl; [reflexivity | now rewrite IH]. Qed.

Lemma append_nonempty_r (a b : string) : b <> EmptyString -> a +:+ b <> EmptyString.
Proof. destruct a; simpl; [tauto | discriminate]. Qed.

(** [startswith] is the prefix relation. *)
Lemma startswith_iff (s p : string) :
  Str.startswith s p = true <-> exists r, s = p +:+ r.
Proof.
  revert s; induction p as [|b p IH]; intros s; simpl.
  - split; [intros _; now exists s | intros _; reflexivity].
  - destruct s as [|a s].
    + split; [discriminate | intros [r Hr]; discriminate].
    + destruct (Ascii.eqb_spec a b) as [->|Hne].
      * rewrite IH. split; intros [r Hr]; exists r; congruence.
      * split; [discriminate | intros [r Hr]; congruence].
Qed.

Lemma lstrip_split (s : string) :
  exists l, s = l +:+ Str.lstrip s /\ Str.all_space l = true.
Proof.
  induction s as [|c s [l [Hl Hs]]]; simpl.
  - now exists EmptyString.
  - destruct (Chr.isspace c) eqn:Hc.
    + exists (String c l). simpl. rewrite Hc, Hs. split; [congruence | reflexivity].
    + now exists EmptyString.
Qed.

Lemma rstrip_split (s : string) :
  exists r, s = Str.rstrip s +:+ r /\ Str.all_space r = true.
Proof.
  induction s as [|c s [r [Hr Hs]]]; simpl.
  - now exists EmptyString.
  - destruct (Str.rstrip s) as [|d t] eqn:Ht.
    + destruct (Chr.isspace c) eqn:Hc; simpl in *.
      * exists (String c r). simpl. rewrite Hc, Hs. split; [congruence | reflexivity].
      * exists r. split; [congruence | assumption].
    + exists r. simpl in *. split; [congruence | assumption].
Qed.

(** What [strip] removes is white space on both sides. *)
Lemma strip_split (s : string) :
  exists l r, s = l +:+ Str.strip s +:+ r
              /\ Str.all_space l = true /\ Str.all_space r = true.
Proof.
  destruct (lstrip_split s) as [l [Hl Hls]].
  destruct (rstrip_split (Str.lstrip s)) as [r [Hr Hrs]].
  exists l, r. unfold Str.strip. rewrite <- Hr. auto.
Qed.

Lemma lstrip_first (s : string) (c : ascii) :
  Str.first_char (Str.lstrip s) = Some c -> Chr.isspace c = false.
Proof.
  induction s as [|a s IH]; simpl; [discriminate|].
  destruct (Chr.isspace a) eqn:Ha; [exact IH | simpl; congruence].
Qed.

Lemma rstrip_last (s : string) (c : ascii) :
  Str.last_char (Str.rstrip s) = Some c -> Chr.isspace c = false.
Proof.
  induction s as [|a s IH]; simpl; [discriminate|].
  destruct (Str.rstrip s) as [|d t] eqn:Ht.
  - destruct (Chr.isspace a) eqn:Ha; simpl; [discriminate | congruence].
  - exact IH.
Qed.

Lemma rstrip_first (s : string) (c : ascii) :
  Str.first_char (Str.rstrip s) = Some c -> Str.first_char s = Some c.
Proof.
  destruct s as [|a s]; simpl; [discriminate|].
  destruct (Str.rstrip s); [destruct (Chr.isspace a)|]; simpl; congruence.
Qed.

(** The stripped string neither starts nor ends with white space. *)
Lemma strip_ends (s : string) (c : ascii) :
  Str.first_char (Str.strip s) = Some c \/ Str.last_char (Str.strip s) = Some c ->
  Chr.isspace c = false.
Proof.
  unfold Str.strip. intros [H|H].
  - apply rstrip_first in H. now apply lstrip_first in H.
  - now apply rstrip_last in H.
Qed.

(** Tab, space, no-break space and line feed go; inner space stays. *)
Example strip_mixed :
  Str.strip (String (ascii_of_N 9) " a b " +:+ String (ascii_of_N 160) newline) = "a b".
Proof. reflexivity. Qed.

Example strip_blank : Str.strip "   " = EmptyString.
Proof. reflexivity. Qed.

End StringFacts.

(** ** JSON: decoding what was encoded *)

(** Case analysis on the scrutinee of a [match] in a hypothesis. *)
Ltac break_match_hyp :=
  match goal with
  | H : context [match ?x with _ => _ end] |- _ => destruct x eqn:?
  end.

(** The ends of the case analysis of a decoder that raised. *)
Ltac decode_leaf :=
  match goal with
  | H : Raises _ = Raises _ |- _ => inversion H; subst; clear H
  | H : Returns _ = Raises _ |- _ => discriminate H
  | H : Unmodelled = Raises _ |- _ => discriminate H
  | H : decode_error = Raises _ |- _ => inversion H; reflexivity
  | H : raise _ _ = Raises _ |- _ => inversion H; reflexivity
  | |- ?x = ?x => reflexivity
  end.

Section JsonFacts.

(** Decoding the escape of a character gives the character back. *)
Lemma scanstring_escape_char (c : ascii) (t : string) :
  scanstring (escape_char c +:+ t) = cons_char c (scanstring t).
Proof. destruct c as [[] [] [] [] [] [] [] []]; reflexivity. Qed.

Lemma scanstring_escape (s rest : string) :
  scanstring (escape s +:+ String dquote rest) = Returns (s, rest).
Proof.
  induction s as [|c s IH]; simpl.
  - reflexivity.
  - rewrite append_assoc, scanstring_escape_char, IH. reflexivity.
Qed.

(** A quoted string, read as a value. *)
Lemma scan_once_string (n d : nat) (s rest : string) :
  scan_once (S n) d (encode_basestring_ascii s +:+ rest) = Returns (JString s, rest).
Proof.
  unfold encode_basestring_ascii. simpl.
  rewrite append_assoc. simpl. rewrite scanstring_escape. reflexivity.
Qed.

(** An object of one string member, as [indent=2] lays it out. *)
Lemma scan_once_member (n d : nat) (k v rest : string) :
  scan_once (S (S (S n))) (S d) (dumps_indent2_member k v +:+ rest)
  = Returns (JObject [(k, JString v)], rest).
Proof.
  unfold dumps_indent2_member.
  rewrite !append_assoc. simpl.
  rewrite !append_assoc. simpl. rewrite scanstring_escape. simpl.
  rewrite scanstring_escape. reflexivity.
Qed.

(** [loads] undoes [dumps] on the configuration document. *)
Lemma loads_dumps_member (k v : string) :
  loads (dumps_indent2_member k v) = Returns (JObject [(k, JString v)]).
Proof.
  unfold loads.
  assert (Hlen : exists n, 2 * String.length (dumps_indent2_member k v) = S (S n)).
  { unfold dumps_indent2_member. simpl. eauto. }
  destruct Hlen as [n ->].
  assert (Hws : skip_ws (dumps_indent2_member k v) = dumps_indent2_member k v)
    by reflexivity.
  rewrite Hws, <- (append_empty_r (dumps_indent2_member k v)).
  unfold max_depth. rewrite scan_once_member.
  reflexivity.
Qed.

(** *** What the decoder raises is a [ValueError] *)

Lemma cons_char_raises (c : ascii) (r : outcome (string * string)) (e : exc) :
  cons_char c r = Raises e -> r = Raises e.
Proof. destruct r as [[? ?]| |]; simpl; congruence. Qed.

Lemma scanstring_raises (s : string) (e : exc) :
  scanstring s = Raises e -> e = Exc JSONDecodeError "invalid JSON".
Proof.
  remember (String.length s) as n eqn:Hn.
  assert (Hle : String.length s <= n) by lia. clear Hn.
  revert s Hle. induction n as [|n IH]; intros s Hle H.
  - destruct s; simpl in *; [now inversion H | lia].
  - destruct s as [|c s]; simpl in H; [now inversion H|].
    simpl in Hle.
    repeat (break_match_hyp; try decode_leaf); subst; simpl in Hle;
      try (apply cons_char_raises in H; apply IH in H; [exact H | simpl; lia]).
Qed.

Lemma scan_scalar_raises (s : string) (e : exc) :
  scan_scalar s = Raises e -> isinstance (exc_cls e) ValueError = true.
Proof.
  unfold scan_scalar, number_value. intros H.
  repeat (break_match_hyp; try decode_leaf).
Qed.

#[local] Arguments scan_scalar : simpl never.
#[local] Arguments scanstring : simpl never.
#[local] Arguments skip_ws : simpl never.

Lemma scan_raises (fuel : nat) :
  (forall d s e, scan_once fuel d s = Raises e -> isinstance (exc_cls e) ValueError = true)
  /\ (forall d s e, object_members fuel d s = Raises e ->
                    isinstance (exc_cls e) ValueError = true)
  /\ (forall d s e, array_items fuel d s = Raises e ->
                    isinstance (exc_cls e) ValueError = true).
Proof.
  induction fuel as [|fuel (IHs & IHo & IHa)].
  - repeat split; intros d s e H; discriminate H.
  - repeat split; intros d s e H; simpl in H; unfold obind in H;
      repeat (break_match_hyp; try decode_leaf);
      try match goal with
          | H : scanstring _ = Raises _ |- _ =>
              apply scanstring_raises in H; subst; reflexivity
          end;
      eauto using scan_scalar_raises.
Qed.

(** Whatever [loads] raises is a [ValueError]: a [JSONDecodeError], or the
    [ValueError] of an integer literal with too many digits. *)
Lemma loads_raises (s : string) (e : exc) :
  loads s = Raises e -> isinstance (exc_cls e) ValueError = true.
Proof.
  unfold loads, obind. intros H.
  destruct (scan_once _ _ _) as [[v r]|e'|] eqn:Hs.
  - destruct (skip_ws r); [discriminate | now inversion H].
  - inversion H; subst. now apply scan_raises in Hs.
  - discriminate.
Qed.

End JsonFacts.

(** ** JSON: the decoder's counter is large enough *)

Section JsonFuel.

Lemma skip_ws_length (s : string) : String.length (skip_ws s) <= String.length s.
Proof. induction s as [|c s IH]; simpl; [lia|]. destruct (is_ws c); simpl; lia. Qed.

Lemma cons_char_returns (c : ascii) (o : outcome (string * string)) (x r : string) :
  cons_char c o = Returns (x, r) -> exists x', o = Returns (x', r).
Proof. destruct o as [[x' r']| |]; simpl; intros H; inversion H; eauto. Qed.

Lemma scanstring_length (s x r : string) :
  scanstring s = Returns (x, r) -> String.length r < String.length s.
Proof.
  remember (String.length s) as n eqn:Hn.
  assert (Hle : String.length s <= n) by lia.
  rewrite Hn. clear Hn.
  revert s x r Hle. induction n as [|n IH]; intros s x r Hle H.
  - destruct s; simpl in *; [discriminate H | lia].
  - destruct s as [|c s]; simpl in H; [discriminate H|].
    simpl in Hle.
    repeat (break_match_hyp; try discriminate); subst; simpl in *;
      try (inversion H; subst; lia);
      try (apply cons_char_returns in H as [x' H]; apply IH in H; simpl; lia).
Qed.

Lemma after_length (lit s r : string) :
  after lit s = Some r -> String.length s = String.length lit + String.length r.
Proof.
  revert s; induction lit as [|b lit IH]; intros s H; simpl in *.
  - now inversion H.
  - destruct s as [|a s]; [discriminate|]. destruct (Ascii.eqb a b); [|discriminate].
    apply IH in H. simpl. lia.
Qed.

Lemma span_digits_length (s ds r : string) :
  span_digits s = (ds, r) -> String.length r <= String.length s.
Proof.
  revert ds r; induction s as [|c s IH]; intros ds r H; simpl in *.
  - inversion H. simpl. lia.
  - destruct (Chr.is_digit c).
    + destruct (span_digits s) as [ds' r'] eqn:Hs. inversion H; subst.
      specialize (IH _ _ eq_refl). lia.
    + inversion H; subst. simpl. lia.
Qed.

Lemma match_digits1_length (s ds r : string) :
  match_digits1 s = Some (ds, r) -> String.length r <= String.length s.
Proof.
  unfold match_digits1. destruct (span_digits s) as [ds' r'] eqn:Hs.
  apply span_digits_length in Hs. destruct ds'; intros H; inversion H; subst; lia.
Qed.

Lemma match_frac_length (s f r : string) :
  match_frac s = (f, r) -> String.length r <= String.length s.
Proof.
  unfold match_frac. intros H.
  repeat (break_match_hyp; try discriminate); inversion H; subst; simpl; try lia.
  match goal with H : match_digits1 _ = Some _ |- _ => apply match_digits1_length in H end.
  lia.
Qed.

Lemma match_exp_length (s e r : string) :
  match_exp s = (e, r) -> String.length r <= String.length s.
Proof.
  unfold match_exp. intros H.
  repeat (break_match_hyp; try discriminate); inversion H; subst; simpl; try lia;
    match goal with H : match_digits1 _ = Some _ |- _ => apply match_digits1_length in H end;
    simpl in *; lia.
Qed.

Lemma match_int_length (s i r : string) :
  match_int s = Some (i, r) -> String.length r < String.length s.
Proof.
  unfold match_int. intros H.
  repeat (break_match_hyp; try discriminate); inversion H; subst; simpl; try lia.
  match goal with H : span_digits _ = _ |- _ => apply span_digits_length in H end. lia.
Qed.

Lemma match_number_length (s lx r : string) :
  match_number s = Some (lx, r) -> String.length r < String.length s.
Proof.
  unfold match_number. intros H.
  repeat (break_match_hyp; try discriminate); inversion H; subst;
    repeat match goal with
      | H : match_int _ = Some _ |- _ => apply match_int_length in H
      | H : match_frac _ = _ |- _ => apply match_frac_length in H
      | H : match_exp _ = _ |- _ => apply match_exp_length in H
      | H : (_, _) = (_, _) |- _ => inversion H; subst; clear H
      end; simpl in *; lia.
Qed.

Lemma scan_scalar_length (s : string) (v : value) (r : string) :
  scan_scalar s = Returns (v, r) -> String.length r < String.length s.
Proof.
  unfold scan_scalar, number_value. intros H.
  repeat (break_match_hyp; try discriminate); inversion H; subst;
    repeat match goal with
      | H : after _ _ = Some _ |- _ => apply after_length in H
      | H : match_number _ = Some _ |- _ => apply match_number_length in H
      end; simpl in *; lia.
Qed.

#[local] Arguments scan_scalar : simpl never.
#[local] Arguments scanstring : simpl never.
#[local] Arguments skip_ws : simpl never.

(** Facts on lengths from the equations in the context. *)
Ltac length_facts :=
  repeat match goal with
    | H : skip_ws ?s = _ |- _ =>
        let L := fresh "L" in
        pose proof (skip_ws_length s) as L; rewrite H in L; clear H
    | H : context [skip_ws ?s] |- _ =>
        let L := fresh "L" in
        let t := fresh "t" in
        pose proof (skip_ws_length s) as L; set (t := skip_ws s) in *; clearbody t
    | |- context [skip_ws ?s] =>
        let L := fresh "L" in
        let t := fresh "t" in
        pose proof (skip_ws_length s) as L; set (t := skip_ws s) in *; clearbody t
    | H : scanstring _ = Returns (_, _) |- _ => apply scanstring_length in H
    | H : scan_scalar _ = Returns (_, _) |- _ => apply scan_scalar_length in H
    end;
  simpl String.length in *.

(** Every call that returns has consumed some text. *)
Lemma scan_length (fuel : nat) :
  (forall d s v r, scan_once fuel d s = Returns (v, r) ->
                   String.length r < String.length s)
  /\ (forall d s ms r, object_members fuel d s = Returns (ms, r) ->
                       String.length r < String.length s)
  /\ (forall d s vs r, array_items fuel d s = Returns (vs, r) ->
                       String.length r < String.length s).
Proof.
  induction fuel as [|fuel (IHs & IHo & IHa)].
  - repeat split; intros d s v r H; discriminate H.
  - repeat split; intros d s v r H; simpl in H; unfold obind in H;
      repeat (break_match_hyp; try discriminate);
      inversion H; subst; clear H;
      repeat match goal with
        | H : scan_once fuel _ _ = Returns (_, _) |- _ => apply IHs in H
        | H : object_members fuel _ _ = Returns (_, _) |- _ => apply IHo in H
        | H : array_items fuel _ _ = Returns (_, _) |- _ => apply IHa in H
        end;
      length_facts; lia.
Qed.

Ltac length_of_calls Ls Lo La :=
  repeat match goal with
    | H : scan_once _ _ _ = Returns (_, _) |- _ => apply Ls in H
    | H : object_members _ _ _ = Returns (_, _) |- _ => apply Lo in H
    | H : array_items _ _ _ = Returns (_, _) |- _ => apply La in H
    end.

Ltac break_match_goal :=
  match goal with
  | |- context [match ?x with _ => _ end] => destruct x eqn:?
  end.

(** A counter above twice the length of the text is never used up: raising
    it further changes nothing. *)
Lemma scan_fuel (fuel : nat) :
  (forall d s k, 2 * String.length s < fuel ->
                 scan_once (fuel + k) d s = scan_once fuel d s)
  /\ (forall d s k, 2 * String.length s + 1 < fuel ->
                    object_members (fuel + k) d s = object_members fuel d s)
  /\ (forall d s k, 2 * String.length s + 1 < fuel ->
                    array_items (fuel + k) d s = array_items fuel d s).
Proof.
  induction fuel as [|fuel (IHs & IHo & IHa)].
  - repeat split; intros; lia.
  - destruct (scan_length fuel) as (Ls & Lo & La).
    repeat split; intros d s k Hlen; simpl; unfold obind;
      repeat first
        [ reflexivity
        | rewrite IHs by (length_of_calls Ls Lo La; length_facts; lia)
        | rewrite IHo by (length_of_calls Ls Lo La; length_facts; lia)
        | rewrite IHa by (length_of_calls Ls Lo La; length_facts; lia)
        | break_match_goal ].
Qed.

(** [loads] gives the decoder rounds enough. *)
Lemma loads_fuel (s : string) (k : nat) :
  scan_once (S (2 * String.length s) + k) max_depth (skip_ws s)
  = scan_once (S (2 * String.length s)) max_depth (skip_ws s).
Proof.
  apply scan_fuel. pose proof (skip_ws_length s). lia.
Qed.

End JsonFuel.

(** ** The configuration store *)

Section ConfigStore.

(** [load_config] reads the file and changes nothing. *)
Lemma load_config_eq (w : world) :
  load_config w = (stored (files w !! CONFIG_FILE), w).
Proof.
  unfold load_config, bind, path_exists, try_except, read_text, lift, ret, stored.
  destruct (files w !! CONFIG_FILE) as [[| |c]|] eqn:Hf; simpl; rewrite ?Hf; simpl.
  - reflexivity.
  - reflexivity.
  - destruct (loads c) as [data|e|] eqn:Hl; simpl.
    + destruct data; reflexivity.
    + apply loads_raises in Hl. unfold caught_by. simpl. rewrite Hl. reflexivity.
    + reflexivity.
  - reflexivity.
Qed.

(** [save_config] replaces the file unless it cannot be opened. *)
Lemma save_config_eq (url : string) (w : world) :
  files w !! CONFIG_FILE <> Some Inaccessible ->
  save_config url w
  = (Returns tt,
     World (<[CONFIG_FILE := Text (dumps_indent2_member "discord_webhook_url" url)]> (files w))
           (now w) (remote w) (stdin w) (console_window w) (bind_error w)
           (trace w ++ [EvWrite CONFIG_FILE (dumps_indent2_member "discord_webhook_url" url)])).
Proof.
  intros Hacc. unfold save_config, write_text.
  destruct (files w !! CONFIG_FILE) as [[| |c]|]; try reflexivity.
  now destruct Hacc.
Qed.

Lemma save_config_inaccessible (url : string) (w : world) :
  files w !! CONFIG_FILE = Some Inaccessible ->
  save_config url w = (raise OSError "Permission denied", w).
Proof. intros Hf. unfold save_config, write_text. now rewrite Hf. Qed.

(** The file [save_config] writes holds the URL. *)
Lemma stored_saved (url : string) (fs : gmap string file) :
  stored (<[CONFIG_FILE := Text (dumps_indent2_member "discord_webhook_url" url)]> fs
            !! CONFIG_FILE)
  = Returns (JString url).
Proof.
  rewrite lookup_insert_eq. unfold stored. rewrite loads_dumps_member. reflexivity.
Qed.

(** [save_config] touches no other file. *)
Lemma save_config_frame (url path : string) (w : world) :
  path <> CONFIG_FILE ->
  files (snd (save_config url w)) !! path = files w !! path.
Proof.
  intros Hne. unfold save_config, write_text.
  destruct (files w !! CONFIG_FILE) as [[| |c]|]; simpl;
    try reflexivity; now rewrite lookup_insert_ne.
Qed.

End ConfigStore.

(** ** The handler *)

Section Handler.

Variables sender message : string.

Lemma forwarder_unconfigured (w : world) (url : string) :
  stored (files w !! CONFIG_FILE) = Returns (JString url) ->
  Str.startswith url WEBHOOK_PREFIX = false ->
  forwarder sender message w = (Returns not_configured, w).
Proof.
  intros Hs Hp. unfold forwarder, bind.
  rewrite load_config_eq, Hs, Hp. reflexivity.
Qed.

Lemma forwarder_posts (w : world) (url : string) :
  stored (files w !! CONFIG_FILE) = Returns (JString url) ->
  Str.startswith url WEBHOOK_PREFIX = true ->
  forwarder sender message w
  = (Returns (reply_to (remote w url (body_of (now w) sender message))),
     log (EvPost url (body_of (now w) sender message)) w).
Proof.
  intros Hs Hp. unfold forwarder, bind.
  rewrite load_config_eq, Hs, Hp. simpl.
  unfold try_except, bind, requests_post, bind, emit, datetime_now, ret. simpl.
  fold (body_of (now w) sender message).
  destruct (remote w url _) as [r|msg]; simpl; [|reflexivity].
  unfold raise_for_status. destruct (http_error_msg r); reflexivity.
Qed.

(** When the stored value is no string, or cannot be loaded, the handler
    propagates the failure and does nothing. *)
Lemma forwarder_fails (w : world) :
  (forall url, stored (files w !! CONFIG_FILE) <> Returns (JString url)) ->
  exists o, forwarder sender message w = (o, w) /\ forall r, o <> Returns r.
Proof.
  intros Hs. unfold forwarder, bind. rewrite load_config_eq.
  destruct (stored _) as [v|e|]; [destruct v|..];
    try (eexists; split; [reflexivity | discriminate]).
  now destruct (Hs s).
Qed.

End Handler.

(** ** Status codes *)

Section Status.

Lemma http_error_msg_none (r : response) :
  (status_code r < 400 \/ 600 <= status_code r)%N -> http_error_msg r = EmptyString.
Proof.
  intros H. unfold http_error_msg.
  destruct (N.leb_spec 400 (status_code r)), (N.ltb_spec (status_code r) 500),
           (N.leb_spec 500 (status_code r)), (N.ltb_spec (status_code r) 600);
    simpl; try reflexivity; lia.
Qed.

Lemma http_error_msg_some (r : response) :
  (400 <= status_code r < 600)%N ->
  exists kind,
    http_error_msg r
    = decimal (status_code r) +:+ kind +:+ reason r +:+ " for url: " +:+ resp_url r
    /\ (kind = " Client Error: " \/ kind = " Server Error: ").
Proof.
  intros H. unfold http_error_msg.
  destruct (N.leb_spec 400 (status_code r)), (N.ltb_spec (status_code r) 500),
           (N.leb_spec 500 (status_code r)), (N.ltb_spec (status_code r) 600);
    simpl; try lia;
    first [ exists " Client Error: "; split; [reflexivity | auto]
          | exists " Server Error: "; split; [reflexivity | auto] ].
Qed.

Lemma http_error_msg_nonempty (r : response) :
  (400 <= status_code r < 600)%N -> http_error_msg r <> EmptyString.
Proof.
  intros H. destruct (http_error_msg_some r H) as (kind & -> & [-> | ->]);
    apply append_nonempty_r; discriminate.
Qed.

(** A status outside 400..599 counts as delivered. *)
Lemma reply_to_delivered (r : response) :
  (status_code r < 400 \/ 600 <= status_code r)%N -> reply_to (Answered r) = forwarded.
Proof. intros H. unfold reply_to. now rewrite http_error_msg_none. Qed.

Lemma reply_to_http_error (r : response) :
  (400 <= status_code r < 600)%N ->
  reply_to (Answered r) = error_response (http_error_msg r).
Proof.
  intros H. apply http_error_msg_nonempty in H. unfold reply_to.
  now destruct (http_error_msg r).
Qed.

End Status.

(** ** The prompt *)

Section Prompt.

#[local] Arguments Str.startswith : simpl never.
#[local] Arguments Str.strip : simpl never.

(** One round of the loop. *)
Lemma prompt_loop_step (rounds : nat) (w : world) :
  prompt_loop (S rounds) w
  = match stdin w with
    | [] => (raise EOFError "EOF when reading a line",
             log (EvPrompt "          Enter your Discord webhook URL: ") w)
    | line :: rest =>
        let w1 := set_stdin rest
                    (log (EvPrompt "          Enter your Discord webhook URL: ") w) in
        if Str.startswith (Str.strip line) WEBHOOK_PREFIX then
          match save_config (Str.strip line) w1 with
          | (Returns _, w2) => (Returns (Str.strip line), log (EvPrint (accepted_print)) w2)
          | (Raises e, w2) => (Raises e, w2)
          | (Unmodelled, w2) => (Unmodelled, w2)
          end
        else prompt_loop rounds (log (EvPrint rejected_print) w1)
    end.
Proof.
  simpl. unfold bind at 1. unfold input at 1, bind, emit. simpl.
  destruct (stdin w) as [|line rest]; simpl; [reflexivity|].
  unfold ret at 1. destruct (Str.startswith _ _); [|reflexivity].
  unfold bind. destruct (save_config _ _) as [[[]| |] w2]; reflexivity.
Qed.

Lemma prompt_loop_run (skipped : list string) :
  forall (rounds : nat) (w : world) (line : string) (rest : list string),
    stdin w = skipped ++ line :: rest ->
    Forall rejected skipped ->
    accepted line ->
    length skipped < rounds ->
    files w !! CONFIG_FILE <> Some Inaccessible ->
    prompt_loop rounds w
    = (Returns (Str.strip line),
       World (<[CONFIG_FILE := Text (saved_doc (Str.strip line))]> (files w))
             (now w) (remote w) rest (console_window w) (bind_error w)
             (trace w ++ concat (map (fun _ => rejected_round) skipped)
                      ++ accepted_round (Str.strip line))).
Proof.
  induction skipped as [|l skipped IH]; intros rounds w line rest Hin Hrej Hacc Hlt Hf;
    (destruct rounds as [|rounds]; [simpl in Hlt; lia|]).
  - simpl in Hin. simpl. unfold bind at 1. unfold input at 1, bind, emit. simpl.
    rewrite Hin. simpl. unfold ret at 1. unfold accepted in Hacc. rewrite Hacc.
    rewrite save_config_eq by exact Hf. simpl.
    unfold print, emit, ret, colored_text, log. simpl.
    rewrite <- !app_assoc. reflexivity.
  - simpl in Hin. simpl. unfold bind at 1. unfold input at 1, bind, emit. simpl.
    rewrite Hin. simpl. unfold ret at 1.
    apply Forall_cons in Hrej as [Hl Hrej]. unfold rejected in Hl. rewrite Hl.
    erewrite IH; [| reflexivity | exact Hrej | exact Hacc | simpl in Hlt; lia | exact Hf].
    simpl. rewrite <- !app_assoc. reflexivity.
Qed.

(** Whatever the loop returns was typed, stripped and saved. *)
Lemma prompt_loop_returns (rounds : nat) :
  forall (w w' : world) (url : string),
    prompt_loop rounds w = (Returns url, w') ->
    exists skipped line,
      stdin w = skipped ++ line :: stdin w'
      /\ Forall rejected skipped /\ accepted line /\ url = Str.strip line
      /\ files w !! CONFIG_FILE <> Some Inaccessible.
Proof.
  induction rounds as [|rounds IH]; intros w w' url H; [discriminate H|].
  rewrite prompt_loop_step in H.
  destruct (stdin w) as [|line rest] eqn:Hin; [discriminate H|].
  cbv zeta in H.
  destruct (Str.startswith (Str.strip line) WEBHOOK_PREFIX) eqn:Hp.
  - assert (files w !! CONFIG_FILE = Some Inaccessible
            \/ files w !! CONFIG_FILE <> Some Inaccessible) as [Hf|Hf]
      by (destruct (files w !! CONFIG_FILE) as [[| |c]|]; auto; right; discriminate).
    + rewrite save_config_inaccessible in H by exact Hf. discriminate H.
    + rewrite save_config_eq in H by exact Hf. inversion H; subst; clear H.
      exists [], line. simpl. auto.
  - apply IH in H as (skipped & line' & Hs & Hrej & Hacc & Hurl & Hf).
    exists (line :: skipped), line'. simpl in Hs. rewrite Hs.
    repeat split; auto.
Qed.

(** The loop always has rounds enough: it never leaves the model. *)
Lemma prompt_loop_modelled (rounds : nat) :
  forall w : world, length (stdin w) < rounds -> fst (prompt_loop rounds w) <> Unmodelled.
Proof.
  induction rounds as [|rounds IH]; intros w Hlt; [lia|].
  rewrite prompt_loop_step.
  destruct (stdin w) as [|line rest] eqn:Hin; [discriminate|].
  cbv zeta. destruct (Str.startswith _ _).
  - unfold save_config, write_text.
    destruct (files _ !! CONFIG_FILE) as [[| |c]|]; discriminate.
  - apply IH. simpl in *. lia.
Qed.

Lemma prompt_for_webhook_eq (w : world) :
  prompt_for_webhook w
  = prompt_loop (S (length (stdin w)))
      (log (EvPrint [("WARNING", "yellow");
                     (":  No valid Discord webhook URL found in config.", "light_grey")]) w).
Proof. reflexivity. Qed.

Lemma prompt_for_webhook_run (w : world) (skipped : list string) (line : string)
      (rest : list string) :
  stdin w = skipped ++ line :: rest ->
  Forall rejected skipped ->
  accepted line ->
  files w !! CONFIG_FILE <> Some Inaccessible ->
  prompt_for_webhook w
  = (Returns (Str.strip line),
     World (<[CONFIG_FILE := Text (saved_doc (Str.strip line))]> (files w))
           (now w) (remote w) rest (console_window w) (bind_error w)
           (trace w ++ [EvPrint [("WARNING", "yellow");
                                 (":  No valid Discord webhook URL found in config.",
                                  "light_grey")]]
                    ++ concat (map (fun _ => rejected_round) skipped)
                    ++ accepted_round (Str.strip line))).
Proof.
  intros Hin Hrej Hacc Hf. rewrite prompt_for_webhook_eq.
  erewrite prompt_loop_run; [| exact Hin | exact Hrej | exact Hacc | | exact Hf].
  - simpl. rewrite <- !app_assoc. reflexivity.
  - rewrite Hin, length_app. simpl. lia.
Qed.

End Prompt.

(** ** Start-up *)

Section Startup.

Lemma minimize_run (a : args) (w : world) :
  (if minimized a then minimize_console else ret tt) w
  = (Returns tt,
     World (files w) (now w) (remote w) (stdin w) (console_window w) (bind_error w)
           (trace w ++ minimize_events a w)).
Proof.
  unfold minimize_events, minimize_console, ret, emit, log.
  destruct w as [fs t rm inp cw be tr]; simpl.
  destruct (minimized a); simpl;
    [destruct cw as [h|]; simpl; [destruct (h =? 0)%N|]|];
    simpl; rewrite ?app_nil_r; reflexivity.
Qed.

(** What [main] does from the moment the configuration is in place. *)
Lemma serve_run (a : args) (w : world) :
  bind_error w = None ->
  (print (colored_text ["INFO"; ":     Starting chat forwarder..."] ["green"; "light_grey"]) ;;;
   try_finally
     (try_except (uvicorn_run (host a) (port a)) [OSError]
        (fun e => print (colored_text ["ERROR"; ":    "; Py.str e]
                                      ["red"; "light_grey"; "light_grey"])))
     (_ <- input "Press Enter to exit..." ;; ret tt)) w
  = (match stdin w with
     | [] => raise EOFError "EOF when reading a line"
     | _ :: _ => Returns tt
     end,
     World (files w) (now w) (remote w) (tail (stdin w)) (console_window w) None
           (trace w ++ serving_events a)).
Proof.
  intros Hb.
  unfold bind, print, emit, try_finally, try_except, uvicorn_run, input, bind, emit.
  destruct w as [fs t rm inp cw be tr]; simpl in *. subst be. simpl.
  destruct inp as [|l inp]; simpl; unfold log; simpl; rewrite <- !app_assoc; reflexivity.
Qed.

(** First run: no usable configuration, the operator types some lines the
    prompt turns down and then one it takes. *)
Lemma main_first_run (a : args) (w : world) (u : string)
      (skipped : list string) (line : string) (rest : list string) :
  stored (files w !! CONFIG_FILE) = Returns (JString u) ->
  Str.startswith u WEBHOOK_PREFIX = false ->
  stdin w = skipped ++ line :: rest ->
  Forall rejected skipped ->
  accepted line ->
  bind_error w = None ->
  main a w
  = (match rest with
     | [] => raise EOFError "EOF when reading a line"
     | _ :: _ => Returns tt
     end,
     World (<[CONFIG_FILE := Text (saved_doc (Str.strip line))]> (files w))
           (now w) (remote w) (tail rest) (console_window w) None
           (trace w ++ minimize_events a w
                    ++ [EvPrint [("WARNING", "yellow");
                                 (":  No valid Discord webhook URL found in config.",
                                  "light_grey")]]
                    ++ concat (map (fun _ => rejected_round) skipped)
                    ++ accepted_round (Str.strip line)
                    ++ serving_events a)).
Proof.
  intros Hs Hp Hin Hrej Hacc Hb.
  unfold main. unfold bind at 1. rewrite minimize_run.
  unfold bind at 1. rewrite load_config_eq. cbn [files]. rewrite Hs.
  unfold bind at 1. rewrite Hp. cbn [negb].
  unfold bind at 1.
  erewrite prompt_for_webhook_run; [| exact Hin | exact Hrej | exact Hacc |].
  - unfold ret at 1. rewrite serve_run by exact Hb. cbn [stdin files now remote
      console_window bind_error trace]. rewrite <- !app_assoc. reflexivity.
  - cbn [files]. intros Hf. rewrite Hf in Hs. discriminate Hs.
Qed.

(** Later runs: the stored URL is usable and nothing is asked. *)
Lemma main_configured (a : args) (w : world) (u : string) :
  stored (files w !! CONFIG_FILE) = Returns (JString u) ->
  Str.startswith u WEBHOOK_PREFIX = true ->
  bind_error w = None ->
  main a w
  = (match stdin w with
     | [] => raise EOFError "EOF when reading a line"
     | _ :: _ => Returns tt
     end,
     World (files w) (now w) (remote w) (tail (stdin w)) (console_window w) None
           (trace w ++ minimize_events a w ++ serving_events a)).
Proof.
  intros Hs Hp Hb.
  unfold main. unfold bind at 1. rewrite minimize_run.
  unfold bind at 1. rewrite load_config_eq. cbn [files]. rewrite Hs.
  unfold bind at 1. rewrite Hp. cbn [negb]. unfold ret at 1.
  rewrite serve_run by exact Hb. cbn [stdin files now remote
      console_window bind_error trace]. rewrite <- !app_assoc. reflexivity.
Qed.

End Startup.

(** ** The configuration store at its edges *)

Section StoreExamples.

(** Unclosed brackets are a decoding error, however many. *)
Example loads_unclosed : loads "[[[[[[[[" = decode_error.
Proof. vm_compute. reflexivity. Qed.

(** A document that is an array decodes, and has no [get]. *)
Example load_config_array :
  fst (load_config (sample {[ CONFIG_FILE := Text "[]" ]} (answer 204 "No Content") []))
  = raise AttributeError "object has no attribute 'get'".
Proof. vm_compute. reflexivity. Qed.

(** An object without the key counts as no configuration. *)
Example load_config_no_key :
  fst (load_config (sample {[ CONFIG_FILE := Text "{ }" ]} (answer 204 "No Content") []))
  = Returns (JString EmptyString).
Proof. vm_compute. reflexivity. Qed.

(** A value that is no string comes back as it is, and the handler fails on
    its missing [startswith]. *)
Example forwarder_number_stored :
  fst (forwarder "Alice" "Hello"
         (sample {[ CONFIG_FILE := Text ("{" +:+ encode_basestring_ascii "discord_webhook_url"
                                             +:+ ": 5}") ]}
                 (answer 204 "No Content") []))
  = raise AttributeError "object has no attribute 'startswith'".
Proof. vm_compute. reflexivity. Qed.

(** Other members are ignored, and white space is free. *)
Example load_config_other_members :
  fst (load_config
         (sample {[ CONFIG_FILE :=
                      Text ("{" +:+ encode_basestring_ascii "port" +:+ ":8000 , "
                                +:+ encode_basestring_ascii "discord_webhook_url" +:+ " : "
                                +:+ encode_basestring_ascii sample_url +:+ "}  ") ]}
                 (answer 204 "No Content") []))
  = Returns (JString sample_url).
Proof. vm_compute. reflexivity. Qed.

(** A hundred arrays one inside the other are followed, one more is not. *)
Example loads_nested :
  loads (replicate_char 100 "[" +:+ replicate_char 100 "]") <> Unmodelled
  /\ loads (replicate_char 101 "[" +:+ replicate_char 101 "]") = Unmodelled.
Proof. split; vm_compute; [discriminate | reflexivity]. Qed.

(** An integer literal of 4300 digits is read, one of 4301 is a
    [ValueError], which [load_config] catches; with a fraction it is read. *)
Example loads_long_integer :
  loads (replicate_char 4300 "1") = Returns (JNumber (replicate_char 4300 "1"))
  /\ loads (replicate_char 4301 "1")
     = raise ValueError "Exceeds the limit (4300 digits) for integer string conversion"
  /\ loads (replicate_char 4301 "1" +:+ ".5")
     = Returns (JNumber (replicate_char 4301 "1" +:+ ".5"))
  /\ fst (load_config (sample {[ CONFIG_FILE := Text (replicate_char 4301 "1") ]}
                              (answer 204 "No Content") []))
     = Returns (JString EmptyString).
Proof. split; [|split; [|split]]; vm_compute; reflexivity. Qed.

(** An escape beyond U+00FF is beyond the model. *)
Example loads_wide_escape :
  loads (String dquote ("\u4e2d" +:+ String dquote EmptyString)) = Unmodelled.
Proof. vm_compute. reflexivity. Qed.

End StoreExamples.

(** * The claims of the specification *)

Section Timestamp.

(** ["%H:%M"] prints two decimal digits for the hour and two for the minute. *)
Lemma strftime_HM_digits (t : datetime) :
  hour t < 24 -> minute t < 60 ->
  exists h1 h2 m1 m2 : nat,
    strftime_HM t
    = String (digit h1) (String (digit h2) (String ":"
        (String (digit m1) (String (digit m2) EmptyString))))
    /\ h1 < 10 /\ h2 < 10 /\ m1 < 10 /\ m2 < 10
    /\ 10 * h1 + h2 = hour t /\ 10 * m1 + m2 = minute t.
Proof.
  intros Hh Hm.
  exists (hour t / 10), (hour t mod 10), (minute t / 10), (minute t mod 10).
  split; [reflexivity|].
  pose proof (Nat.div_mod_eq (hour t) 10). pose proof (Nat.div_mod_eq (minute t) 10).
  pose proof (Nat.mod_upper_bound (hour t) 10). pose proof (Nat.mod_upper_bound (minute t) 10).
  assert (hour t / 10 < 10) by (apply Nat.Div0.div_lt_upper_bound; lia).
  assert (minute t / 10 < 10) by (apply Nat.Div0.div_lt_upper_bound; lia).
  lia.
Qed.

Example strftime_HM_afternoon : strftime_HM {| hour := 14; minute := 7 |} = "14:07".
Proof. reflexivity. Qed.

Example strftime_HM_morning : strftime_HM {| hour := 9; minute := 5 |} = "09:05".
Proof. reflexivity. Qed.

End Timestamp.

(** C1.  With a stored URL that starts with the webhook prefix and a POST
    answered with a 2xx status, the handler makes exactly one POST, to the
    stored URL, whose body is the object with the one member [content]:
    the local time as HH:MM (two digits each), a space, the sender between
    [**] markers inside square brackets, a colon, one space, and the message
    between backticks; and it returns the object with the one member
    [status], [forwarded]. *)
Theorem forwarder_forwards (w : world) (sender message url : string) (r : response) :
  fst (load_config w) = Returns (JString url) ->
  Str.startswith url WEBHOOK_PREFIX = true ->
  hour (now w) < 24 ->
  minute (now w) < 60 ->
  remote w url
    (JObject [("content",
               JString (strftime_HM (now w) +:+ " [**" +:+ sender +:+ "**]: `"
                          +:+ message +:+ "`"))])
  = Answered r ->
  (200 <= status_code r < 300)%N ->
  exists h1 h2 m1 m2 : nat,
    h1 < 10 /\ h2 < 10 /\ m1 < 10 /\ m2 < 10
    /\ 10 * h1 + h2 = hour (now w) /\ 10 * m1 + m2 = minute (now w)
    /\ forwarder sender message w
       = (Returns {[ "status" := "forwarded" ]},
          World (files w) (now w) (remote w) (stdin w) (console_window w) (bind_error w)
                (trace w
                 ++ [EvPost url
                       (JObject [("content",
                          JString (String (digit h1) (String (digit h2) (String ":"
                                     (String (digit m1) (String (digit m2)
                                        (" [**" +:+ sender +:+ "**]: `" +:+ message +:+ "`")))))))])])).
Proof.
  intros Hl Hp Hh Hm Hr Hs.
  rewrite load_config_eq in Hl. simpl in Hl.
  destruct (strftime_HM_digits (now w) Hh Hm)
    as (h1 & h2 & m1 & m2 & Ht & ? & ? & ? & ? & ? & ?).
  exists h1, h2, m1, m2. repeat (split; [assumption|]).
  rewrite (forwarder_posts sender message w url Hl Hp).
  unfold body_of, content_of. rewrite Hr, reply_to_delivered by lia.
  rewrite Ht. reflexivity.
Qed.

Lemma forwarder_forwards_witness :
  forwarder "Alice" "Hello" (sample configured (answer 204 "No Content") [])
  = (Returns {[ "status" := "forwarded" ]},
     World configured {| hour := 14; minute := 7 |}
           (fun _ _ => answer 204 "No Content") [] None None
           [EvPost sample_url (JObject [("content", JString "14:07 [**Alice**]: `Hello`")])]).
Proof.
  destruct (forwarder_forwards (sample configured (answer 204 "No Content") [])
              "Alice" "Hello" sample_url
              {| status_code := 204; reason := "No Content"; resp_url := sample_url |})
    as (h1 & h2 & m1 & m2 & ? & ? & ? & ? & Hh & Hm & Hf);
    [vm_compute; reflexivity | vm_compute; reflexivity | simpl; lia | simpl; lia
    | reflexivity | simpl; lia |].
  simpl in Hh, Hm.
  assert (h1 = 1) as -> by lia. assert (h2 = 4) as -> by lia.
  assert (m1 = 0) as -> by lia. assert (m2 = 7) as -> by lia.
  exact Hf.
Defined.




(** C3, as the code has it.  [load_config] returns the empty string, raises
    nothing and changes nothing when the configuration file is absent, when
    its bytes are not text, or when [json.load] rejects its text with a
    [ValueError] (the [JSONDecodeError] of malformed JSON included). *)
Theorem load_config_degrades (w : world) :
  files w !! CONFIG_FILE = None
  \/ files w !! CONFIG_FILE = Some Undecodable
  \/ (exists c e, files w !! CONFIG_FILE = Some (Text c) /\ loads c = Raises e) ->
  load_config w = (Returns (JString EmptyString), w).
Proof.
  intros H. rewrite load_config_eq. f_equal.
  destruct H as [-> | [-> | (c & e & -> & Hl)]]; simpl; try reflexivity.
  now rewrite Hl.
Qed.

Lemma load_config_degrades_witness :
  load_config (sample {[ CONFIG_FILE := Text "{not json" ]} (answer 204 "No Content") [])
  = (Returns (JString EmptyString),
     sample {[ CONFIG_FILE := Text "{not json" ]} (answer 204 "No Content") []).
Proof.
  apply load_config_degrades. right. right.
  exists "{not json", (Exc JSONDecodeError "invalid JSON").
  split; vm_compute; reflexivity.
Defined.

(** C3 as stated fails: a configuration file that exists and cannot be
    opened makes [load_config] raise [OSError]. *)
Lemma load_config_unreadable_raises :
  files (sample {[ CONFIG_FILE := Inaccessible ]} (answer 204 "No Content") []) !! CONFIG_FILE
  = Some Inaccessible
  /\ fst (load_config (sample {[ CONFIG_FILE := Inaccessible ]} (answer 204 "No Content") []))
     = Raises (Exc OSError "Permission denied").
Proof. split; vm_compute; reflexivity. Qed.

(** C4, as the code has it.  When the POST ends in a transport failure or in
    a status from 400 to 599, the handler returns the object with [status]
    [error] and [detail] the text of the exception: the failure's own
    message, or for a status the non-empty message of [raise_for_status];
    and it has made that one POST only. *)
Theorem forwarder_reports_failure (w : world) (sender message url : string) :
  fst (load_config w) = Returns (JString url) ->
  Str.startswith url WEBHOOK_PREFIX = true ->
  match remote w url (body_of (now w) sender message) with
  | Failed _ => True
  | Answered r => (400 <= status_code r < 600)%N
  end ->
  exists detail : string,
    forwarder sender message w
    = (Returns {[ "status" := "error"; "detail" := detail ]},
       World (files w) (now w) (remote w) (stdin w) (console_window w) (bind_error w)
             (trace w ++ [EvPost url (body_of (now w) sender message)]))
    /\ match remote w url (body_of (now w) sender message) with
       | Failed msg => detail = msg
       | Answered r => detail = http_error_msg r /\ detail <> EmptyString
       end.
Proof.
  intros Hl Hp Hr. rewrite load_config_eq in Hl. simpl in Hl.
  rewrite (forwarder_posts sender message w url Hl Hp).
  destruct (remote w url _) as [r|msg].
  - exists (http_error_msg r). rewrite reply_to_http_error by exact Hr.
    split; [reflexivity|]. split; [reflexivity | now apply http_error_msg_nonempty].
  - exists msg. split; reflexivity.
Qed.

Lemma forwarder_reports_failure_witness :
  exists detail : string,
    forwarder "Alice" "Hello" (sample configured (answer 404 "Not Found") [])
    = (Returns {[ "status" := "error"; "detail" := detail ]},
       World configured {| hour := 14; minute := 7 |}
             (fun _ _ => answer 404 "Not Found") [] None None
             [EvPost sample_url (body_of {| hour := 14; minute := 7 |} "Alice" "Hello")])
    /\ detail = http_error_msg
                  {| status_code := 404; reason := "Not Found"; resp_url := sample_url |}
    /\ detail <> EmptyString.
Proof.
  apply (forwarder_reports_failure (sample configured (answer 404 "Not Found") [])
           "Alice" "Hello" sample_url);
    [vm_compute; reflexivity | vm_compute; reflexivity | simpl; lia].
Defined.

Example http_error_msg_404 :
  http_error_msg {| status_code := 404; reason := "Not Found"; resp_url := sample_url |}
  = "404 Client Error: Not Found for url: https://discord.com/api/webhooks/123/abc".
Proof. vm_compute. reflexivity. Qed.

(** C4 as stated fails: a status that is neither 2xx nor from 400 to 599 is
    reported as forwarded. *)
Lemma forwarder_304_forwarded :
  fst (forwarder "Alice" "Hello" (sample configured (answer 304 "Not Modified") []))
  = Returns {[ "status" := "forwarded" ]}.
Proof. vm_compute. reflexivity. Qed.

(** C5.  For a URL that starts with the webhook prefix, [save_config]
    followed by [load_config] returns that URL. *)
Theorem save_then_load (w : world) (url : string) :
  Str.startswith url WEBHOOK_PREFIX = true ->
  files w !! CONFIG_FILE <> Some Inaccessible ->
  exists w' : world,
    save_config url w = (Returns tt, w')
    /\ load_config w' = (Returns (JString url), w').
Proof.
  intros _ Hf. eexists. split; [apply save_config_eq, Hf|].
  rewrite load_config_eq. cbn [files]. rewrite stored_saved. reflexivity.
Qed.

Lemma save_then_load_witness :
  exists w' : world,
    save_config sample_url (sample ∅ (answer 204 "No Content") []) = (Returns tt, w')
    /\ load_config w' = (Returns (JString sample_url), w').
Proof.
  apply save_then_load; [reflexivity | vm_compute; discriminate].
Defined.

Section PromptClaims.

(** The prompt returns nothing but a URL that starts with the prefix. *)
Lemma prompt_for_webhook_returns_valid (w w' : world) (url : string) :
  prompt_for_webhook w = (Returns url, w') ->
  Str.startswith url WEBHOOK_PREFIX = true.
Proof.
  rewrite prompt_for_webhook_eq. intros H.
  apply prompt_loop_returns in H as (skipped & line & _ & _ & Hacc & -> & _).
  exact Hacc.
Qed.

(** The prompt does not run out of rounds. *)
Lemma prompt_for_webhook_modelled (w : world) : fst (prompt_for_webhook w) <> Unmodelled.
Proof. rewrite prompt_for_webhook_eq. apply prompt_loop_modelled. simpl. lia. Qed.

End PromptClaims.

(** C6, as the code has it.  The prompt returns only a URL that starts with
    the webhook prefix.  Every typed line whose stripped form does not start
    with the prefix is turned down and the prompt repeats; the first line
    whose stripped form starts with it is written by [save_config], in its
    stripped form, before the loop returns it; and [main] starts the
    listener after that. *)
Theorem prompt_until_accepted (a : args) (w : world) (u : string)
        (skipped : list string) (line : string) (rest : list string) :
  fst (load_config w) = Returns (JString u) ->
  Str.startswith u WEBHOOK_PREFIX = false ->
  stdin w = skipped ++ line :: rest ->
  Forall (fun l => Str.startswith (Str.strip l) WEBHOOK_PREFIX = false) skipped ->
  Str.startswith (Str.strip line) WEBHOOK_PREFIX = true ->
  bind_error w = None ->
  (forall w0 w0' url, prompt_for_webhook w0 = (Returns url, w0') ->
                      Str.startswith url WEBHOOK_PREFIX = true)
  /\ exists w1 : world,
       prompt_for_webhook w = (Returns (Str.strip line), w1)
       /\ stdin w1 = rest
       /\ load_config w1 = (Returns (JString (Str.strip line)), w1)
       /\ trace w1
          = trace w
            ++ [EvPrint [("WARNING", "yellow");
                         (":  No valid Discord webhook URL found in config.", "light_grey")]]
            ++ concat (map (fun _ => rejected_round) skipped)
            ++ [EvPrompt "          Enter your Discord webhook URL: ";
                EvWrite CONFIG_FILE (saved_doc (Str.strip line));
                EvPrint accepted_print]
       /\ files (snd (main a w)) = files w1
       /\ trace (snd (main a w))
          = trace w ++ minimize_events a w
            ++ prompt_events skipped (Str.strip line)
            ++ [EvPrint [("INFO", "green"); (":     Starting chat forwarder...", "light_grey")];
                EvServe (host a) (port a);
                EvPrompt "Press Enter to exit..."].
Proof.
  intros Hl Hp Hin Hrej Hacc Hb.
  rewrite load_config_eq in Hl. simpl in Hl.
  assert (Hf : files w !! CONFIG_FILE <> Some Inaccessible)
    by (intros Hf; rewrite Hf in Hl; discriminate Hl).
  split; [exact prompt_for_webhook_returns_valid|].
  eexists. split; [exact (prompt_for_webhook_run w skipped line rest Hin Hrej Hacc Hf)|].
  cbn [stdin trace files].
  repeat split.
  - rewrite load_config_eq. cbn [files]. unfold saved_doc. rewrite stored_saved. reflexivity.
  - rewrite (main_first_run a w u skipped line rest Hl Hp Hin Hrej Hacc Hb). reflexivity.
  - rewrite (main_first_run a w u skipped line rest Hl Hp Hin Hrej Hacc Hb).
    cbn [snd trace]. unfold prompt_events. rewrite <- !app_assoc. reflexivity.
Qed.

Lemma prompt_until_accepted_witness :
  exists w1 : world,
    prompt_for_webhook (sample ∅ (answer 204 "No Content") ["notaurl"; sample_url])
    = (Returns sample_url, w1)
    /\ stdin w1 = []
    /\ load_config w1 = (Returns (JString sample_url), w1)
    /\ trace w1
       = [EvPrint [("WARNING", "yellow");
                   (":  No valid Discord webhook URL found in config.", "light_grey")];
          EvPrompt "          Enter your Discord webhook URL: ";
          EvPrint rejected_print;
          EvPrompt "          Enter your Discord webhook URL: ";
          EvWrite CONFIG_FILE (saved_doc sample_url);
          EvPrint accepted_print]
    /\ files (snd (main default_args
                     (sample ∅ (answer 204 "No Content") ["notaurl"; sample_url])))
       = files w1
    /\ trace (snd (main default_args
                     (sample ∅ (answer 204 "No Content") ["notaurl"; sample_url])))
       = [EvPrint [("WARNING", "yellow");
                   (":  No valid Discord webhook URL found in config.", "light_grey")];
          EvPrompt "          Enter your Discord webhook URL: ";
          EvPrint rejected_print;
          EvPrompt "          Enter your Discord webhook URL: ";
          EvWrite CONFIG_FILE (saved_doc sample_url);
          EvPrint accepted_print;
          EvPrint [("INFO", "green"); (":     Starting chat forwarder...", "light_grey")];
          EvServe "127.0.0.1" 8000;
          EvPrompt "Press Enter to exit..."].
Proof.
  destruct (prompt_until_accepted default_args
              (sample ∅ (answer 204 "No Content") ["notaurl"; sample_url])
              EmptyString ["notaurl"] sample_url [])
    as [_ (w1 & Hp & Hs & Hl & Ht & Hf & Hm)];
    [ vm_compute; reflexivity | reflexivity | reflexivity
    | repeat constructor | reflexivity | reflexivity |].
  exists w1.
  split; [exact Hp|]. split; [exact Hs|]. split; [exact Hl|].
  split; [exact Ht|]. split; [exact Hf|]. exact Hm.
Defined.

(** C6 as stated fails: a typed line that does not start with the prefix,
    because a space comes first, is taken all the same. *)
Lemma prompt_takes_padded_line :
  Str.startswith " https://discord.com/api/webhooks/1" WEBHOOK_PREFIX = false
  /\ fst (prompt_for_webhook
            (sample ∅ (answer 204 "No Content") [" https://discord.com/api/webhooks/1"]))
     = Returns "https://discord.com/api/webhooks/1".
Proof. split; vm_compute; reflexivity. Qed.

(** C7, as the code has it.  When the stored URL does not start with the
    webhook prefix, the reply is the object with [status] [error] and
    [detail] the text [Discord webhook not configured correctly.] *)
Theorem forwarder_unconfigured_detail (w : world) (sender message url : string) :
  fst (load_config w) = Returns (JString url) ->
  Str.startswith url WEBHOOK_PREFIX = false ->
  fst (forwarder sender message w)
  = Returns {[ "status" := "error";
               "detail" := "Discord webhook not configured correctly." ]}.
Proof.
  intros Hl Hp. rewrite load_config_eq in Hl. simpl in Hl.
  now rewrite (forwarder_unconfigured sender message w url Hl Hp).
Qed.

Lemma forwarder_unconfigured_detail_witness :
  fst (forwarder "Alice" "Hello"
         (sample {[ CONFIG_FILE := Text (saved_doc "http://example.org/hook") ]}
                 (answer 204 "No Content") []))
  = Returns {[ "status" := "error";
               "detail" := "Discord webhook not configured correctly." ]}.
Proof.
  apply (forwarder_unconfigured_detail _ "Alice" "Hello" "http://example.org/hook");
    vm_compute; reflexivity.
Defined.

(** C7 as stated fails: with no configuration file the [detail] of the
    reply is not the text [webhook not configured correctly]. *)
Lemma not_configured_detail_differs :
  exists reply : gmap string string,
    fst (forwarder "Alice" "Hello" (sample ∅ (answer 204 "No Content") [])) = Returns reply
    /\ reply !! "status" = Some "error"
    /\ reply !! "detail" = Some "Discord webhook not configured correctly."
    /\ reply !! "detail" <> Some "webhook not configured correctly".
Proof.
  exists not_configured. repeat split; try (vm_compute; reflexivity).
  vm_compute. discriminate.
Qed.

(** C8.  Handling a request leaves every file as it was, whatever the
    outcome: the only change to the world is at most one POST added to the
    trace.  The configuration is read anew by each request: a request that
    follows a [save_config] posts to the URL just saved. *)
Theorem forwarder_leaves_config (w : world) (sender message : string) :
  files (snd (forwarder sender message w)) = files w
  /\ fst (load_config (snd (forwarder sender message w))) = fst (load_config w)
  /\ (exists posts : list event,
        snd (forwarder sender message w)
        = World (files w) (now w) (remote w) (stdin w) (console_window w) (bind_error w)
                (trace w ++ posts)
        /\ length posts <= 1
        /\ Forall (fun e => exists url body, e = EvPost url body) posts)
  /\ (forall url : string,
        Str.startswith url WEBHOOK_PREFIX = true ->
        files w !! CONFIG_FILE <> Some Inaccessible ->
        trace (snd (forwarder sender message (snd (save_config url w))))
        = trace w ++ [EvWrite CONFIG_FILE (saved_doc url);
                      EvPost url (body_of (now w) sender message)]).
Proof.
  assert (Hw : exists posts : list event,
             snd (forwarder sender message w)
             = World (files w) (now w) (remote w) (stdin w) (console_window w)
                     (bind_error w) (trace w ++ posts)
             /\ length posts <= 1
             /\ Forall (fun e => exists url body, e = EvPost url body) posts).
  { destruct (stored (files w !! CONFIG_FILE)) as [v|e|] eqn:Hs;
      [destruct v as [| | |url| |]|..];
      try (destruct (forwarder_fails sender message w) as (o & -> & _);
           [intros url; rewrite Hs; discriminate|];
           exists []; rewrite app_nil_r; destruct w; simpl; auto).
    destruct (Str.startswith url WEBHOOK_PREFIX) eqn:Hp.
    - rewrite (forwarder_posts sender message w url Hs Hp).
      exists [EvPost url (body_of (now w) sender message)]. simpl.
      repeat split; auto. repeat constructor. eauto.
    - rewrite (forwarder_unconfigured sender message w url Hs Hp).
      exists []. rewrite app_nil_r. destruct w; simpl; auto. }
  destruct Hw as (posts & Hw & Hlen & Hposts).
  repeat split.
  - now rewrite Hw.
  - rewrite !load_config_eq, Hw. reflexivity.
  - exists posts. auto.
  - intros url Hp Hf. rewrite save_config_eq by exact Hf. cbn [snd].
    rewrite forwarder_posts with (url := url);
      [| cbn [files]; apply stored_saved | exact Hp].
    cbn [snd log trace now]. rewrite <- app_assoc. reflexivity.
Qed.

Lemma forwarder_leaves_config_witness :
  trace (snd (forwarder "Alice" "Hello"
                (snd (save_config sample_url (sample ∅ (answer 204 "No Content") [])))))
  = [EvWrite CONFIG_FILE (saved_doc sample_url);
     EvPost sample_url (body_of {| hour := 14; minute := 7 |} "Alice" "Hello")].
Proof.
  apply (proj2 (proj2 (proj2
           (forwarder_leaves_config (sample ∅ (answer 204 "No Content") [])
              "Alice" "Hello"))) sample_url);
    [reflexivity | vm_compute; discriminate].
Defined.

(** C9.  A value the handler returns is either the object with the one
    member [status], [forwarded], or the object with the two members
    [status], [error], and [detail]; so it has a [detail] exactly when its
    [status] is [error]. *)
Theorem forwarder_reply_shape (w w' : world) (sender message : string)
        (reply : gmap string string) :
  forwarder sender message w = (Returns reply, w') ->
  (reply = {[ "status" := "forwarded" ]}
   \/ exists detail : string, reply = {[ "status" := "error"; "detail" := detail ]})
  /\ (dom reply = {[ "status" ]} \/ dom reply = {[ "status"; "detail" ]})
  /\ (is_Some (reply !! "detail") <-> reply !! "status" = Some "error").
Proof.
  intros H.
  assert (Hshape : reply = forwarded \/ exists detail, reply = error_response detail).
  { destruct (stored (files w !! CONFIG_FILE)) as [v|e|] eqn:Hs;
      [destruct v as [| | |url| |]|..];
      try (destruct (forwarder_fails sender message w) as (o & Ho & Hno);
           [intros url; rewrite Hs; discriminate|];
           rewrite Ho in H; inversion H; subst; now destruct (Hno reply)).
    destruct (Str.startswith url WEBHOOK_PREFIX) eqn:Hp.
    - rewrite (forwarder_posts sender message w url Hs Hp) in H.
      inversion H; subst; clear H.
      destruct (remote w url _) as [r|msg]; simpl; [|eauto].
      destruct (http_error_msg r); eauto.
    - rewrite (forwarder_unconfigured sender message w url Hs Hp) in H.
      inversion H; subst. right. eexists. reflexivity. }
  destruct Hshape as [-> | [detail ->]]; unfold forwarded, error_response.
  - split; [now left|]. split; [left; apply dom_singleton_L|].
    split; [intros [x Hx]; discriminate Hx | discriminate].
  - split; [right; eauto|]. split.
    + right. rewrite dom_insert_L, dom_singleton_L. reflexivity.
    + split; [reflexivity | intros _; now exists detail].
Qed.

Lemma forwarder_reply_shape_witness :
  (not_configured = {[ "status" := "forwarded" ]}
   \/ exists detail : string, not_configured = {[ "status" := "error"; "detail" := detail ]})
  /\ (dom not_configured = {[ "status" ]} \/ dom not_configured = {[ "status"; "detail" ]})
  /\ (is_Some (not_configured !! "detail") <-> not_configured !! "status" = Some "error").
Proof.
  apply (forwarder_reply_shape (sample ∅ (answer 204 "No Content") [])
           (sample ∅ (answer 204 "No Content") []) "Alice" "Hello").
  vm_compute. reflexivity.
Defined.

(** C10.  The prompt strips the white space around the typed line before
    the prefix check: a line whose stripped form starts with the webhook
    prefix is taken whatever white space surrounds it, and the value written
    to the configuration file and returned is the stripped string. *)
Theorem prompt_strips_line (w : world) (line : string) (rest : list string) :
  stdin w = line :: rest ->
  Str.startswith (Str.strip line) WEBHOOK_PREFIX = true ->
  files w !! CONFIG_FILE <> Some Inaccessible ->
  (exists w' : world,
     prompt_for_webhook w = (Returns (Str.strip line), w')
     /\ files w' !! CONFIG_FILE = Some (Text (saved_doc (Str.strip line)))
     /\ load_config w' = (Returns (JString (Str.strip line)), w')
     /\ stdin w' = rest)
  /\ (exists l r : string,
        line = l +:+ Str.strip line +:+ r
        /\ Str.all_space l = true /\ Str.all_space r = true)
  /\ (forall c : ascii,
        Str.first_char (Str.strip line) = Some c \/ Str.last_char (Str.strip line) = Some c ->
        Chr.isspace c = false).
Proof.
  intros Hin Hacc Hf. split; [|split; [apply strip_split | apply strip_ends]].
  eexists. split; [exact (prompt_for_webhook_run w [] line rest Hin (List.Forall_nil _) Hacc Hf)|].
  cbn [files stdin]. repeat split.
  - apply lookup_insert_eq.
  - rewrite load_config_eq. cbn [files]. unfold saved_doc. rewrite stored_saved. reflexivity.
Qed.

Lemma prompt_strips_line_witness :
  exists w' : world,
    prompt_for_webhook
      (sample ∅ (answer 204 "No Content") ["  https://discord.com/api/webhooks/123/abc  "])
    = (Returns sample_url, w')
    /\ files w' !! CONFIG_FILE = Some (Text (saved_doc sample_url))
    /\ load_config w' = (Returns (JString sample_url), w')
    /\ stdin w' = [].
Proof.
  apply (proj1 (prompt_strips_line
                  (sample ∅ (answer 204 "No Content")
                          ["  https://discord.com/api/webhooks/123/abc  "])
                  "  https://discord.com/api/webhooks/123/abc  " []
                  ltac:(reflexivity) ltac:(vm_compute; reflexivity)
                  ltac:(vm_compute; discriminate))).
Defined.

(** * Further properties of the code *)

(** ** The configuration store *)

Section StoreMore.

Lemma members_get_absent (key : string) (ms : list (string * value)) :
  key ∉ map key_of ms -> members_get key ms = None.
Proof.
  induction ms as [|[k v] ms IH]; simpl; [reflexivity|].
  intros Hn. apply not_elem_of_cons in Hn as [Hk Hms].
  rewrite IH by exact Hms. destruct (String.eqb_spec k key); [congruence | reflexivity].
Qed.

Lemma members_get_last (key : string) (v : value) (before after : list (string * value)) :
  key ∉ map key_of after ->
  members_get key (before ++ (key, v) :: after) = Some v.
Proof.
  intros Hn. induction before as [|[k u] before IH]; simpl.
  - rewrite members_get_absent by exact Hn. now rewrite String.eqb_refl.
  - now rewrite IH.
Qed.

End StoreMore.

(** X1.  [load_config] only reads: it leaves the world as it was, and what
    it returns depends on nothing but the state of the configuration file. *)
Theorem load_config_reads_only (w1 w2 : world) :
  files w1 !! CONFIG_FILE = files w2 !! CONFIG_FILE ->
  snd (load_config w1) = w1 /\ fst (load_config w1) = fst (load_config w2).
Proof. intros H. rewrite !load_config_eq. simpl. now rewrite H. Qed.

Lemma load_config_reads_only_witness :
  snd (load_config (sample configured (answer 204 "No Content") ["a"; "b"]))
  = sample configured (answer 204 "No Content") ["a"; "b"]
  /\ fst (load_config (sample configured (answer 204 "No Content") ["a"; "b"]))
     = fst (load_config (sample configured (Failed "down") [])).
Proof. apply load_config_reads_only. reflexivity. Defined.

(** X2.  When the configuration file holds a JSON object without the member
    [discord_webhook_url], [load_config] returns the empty string, whatever
    other members there are. *)
Theorem load_config_missing_key (w : world) (c : string) (ms : list (string * value)) :
  files w !! CONFIG_FILE = Some (Text c) ->
  loads c = Returns (JObject ms) ->
  "discord_webhook_url" ∉ map key_of ms ->
  load_config w = (Returns (JString EmptyString), w).
Proof.
  intros Hf Hl Hk. rewrite load_config_eq, Hf. simpl. rewrite Hl. simpl.
  now rewrite members_get_absent.
Qed.

Lemma load_config_missing_key_witness :
  load_config (sample {[ CONFIG_FILE := Text doc_no_key ]} (answer 204 "No Content") [])
  = (Returns (JString EmptyString),
     sample {[ CONFIG_FILE := Text doc_no_key ]} (answer 204 "No Content") []).
Proof.
  apply (load_config_missing_key _ doc_no_key [("port", JNumber "8000")]);
    [reflexivity | vm_compute; reflexivity |].
  simpl. intros H. apply list_elem_of_singleton in H. discriminate H.
Defined.

(** X3.  When the object in the configuration file has the member
    [discord_webhook_url], [load_config] returns the value of its last
    occurrence, of whatever type, and ignores every other member. *)
Theorem load_config_member (w : world) (c : string) (v : value)
        (before after : list (string * value)) :
  files w !! CONFIG_FILE = Some (Text c) ->
  loads c = Returns (JObject (before ++ ("discord_webhook_url", v) :: after)) ->
  "discord_webhook_url" ∉ map key_of after ->
  load_config w = (Returns v, w).
Proof.
  intros Hf Hl Hk. rewrite load_config_eq, Hf. simpl. rewrite Hl. simpl.
  now rewrite members_get_last.
Qed.

Lemma load_config_member_witness :
  load_config (sample {[ CONFIG_FILE := Text doc_two_keys ]} (answer 204 "No Content") [])
  = (Returns (JString sample_url),
     sample {[ CONFIG_FILE := Text doc_two_keys ]} (answer 204 "No Content") []).
Proof.
  apply (load_config_member _ doc_two_keys (JString sample_url)
           [("discord_webhook_url", JNull)] [("port", JNumber "8000")]);
    [reflexivity | vm_compute; reflexivity |].
  simpl. intros H. apply list_elem_of_singleton in H. discriminate H.
Defined.

(** X4.  When the configuration file holds a JSON document that is not an
    object (an array, a string, a number, [true], [false], [null]),
    [load_config] raises [AttributeError]: the [except] clause does not
    catch it, and the world is as it was. *)
Theorem load_config_not_object (w : world) (c : string) (data : value) :
  files w !! CONFIG_FILE = Some (Text c) ->
  loads c = Returns data ->
  (forall ms, data <> JObject ms) ->
  load_config w = (raise AttributeError "object has no attribute 'get'", w).
Proof.
  intros Hf Hl Hd. rewrite load_config_eq, Hf. simpl. rewrite Hl.
  destruct data; try reflexivity. now destruct (Hd members).
Qed.

Lemma load_config_not_object_witness :
  load_config (sample {[ CONFIG_FILE := Text "null" ]} (answer 204 "No Content") [])
  = (raise AttributeError "object has no attribute 'get'",
     sample {[ CONFIG_FILE := Text "null" ]} (answer 204 "No Content") []).
Proof.
  apply (load_config_not_object _ "null" JNull);
    [reflexivity | vm_compute; reflexivity | discriminate].
Defined.

Section SaveMore.

Lemma all_chars_append (p : ascii -> bool) (a b : string) :
  all_chars p (a +:+ b) = all_chars p a && all_chars p b.
Proof. induction a as [|c a IH]; simpl; [reflexivity|]. now rewrite IH, andb_assoc. Qed.

Lemma escape_char_plain (c : ascii) : all_chars plain_char (escape_char c) = true.
Proof. destruct c as [[] [] [] [] [] [] [] []]; reflexivity. Qed.

Lemma escape_plain (s : string) : all_chars plain_char (escape s) = true.
Proof.
  induction s as [|c s IH]; simpl; [reflexivity|].
  now rewrite all_chars_append, escape_char_plain, IH.
Qed.

Lemma encode_plain (s : string) : all_chars plain_char (encode_basestring_ascii s) = true.
Proof.
  unfold encode_basestring_ascii. simpl.
  now rewrite all_chars_append, escape_plain.
Qed.

Lemma saved_doc_plain (url : string) : all_chars plain_char (saved_doc url) = true.
Proof.
  unfold saved_doc, dumps_indent2_member.
  rewrite !all_chars_append, !encode_plain. reflexivity.
Qed.

End SaveMore.

(** X5.  [save_config] overwrites: after saving one URL and then another,
    [load_config] returns the second, the files are those that saving the
    second alone gives, and no file other than the configuration file has
    changed.  What the file held before (garbage included) plays no part. *)
Theorem save_config_last_wins (w : world) (a b : string) :
  files w !! CONFIG_FILE <> Some Inaccessible ->
  exists w1 w2 : world,
    save_config a w = (Returns tt, w1)
    /\ save_config b w1 = (Returns tt, w2)
    /\ load_config w2 = (Returns (JString b), w2)
    /\ files w2 = files (snd (save_config b w))
    /\ forall path, path <> CONFIG_FILE -> files w2 !! path = files w !! path.
Proof.
  intros Hf. do 2 eexists.
  split; [apply save_config_eq, Hf|].
  split; [apply save_config_eq; cbn [files]; rewrite lookup_insert_eq; discriminate|].
  cbn [files]. repeat split.
  - rewrite load_config_eq. cbn [files]. rewrite stored_saved. reflexivity.
  - rewrite (save_config_eq b w Hf). cbn [snd files]. apply insert_insert_eq.
  - intros path Hp. now rewrite !lookup_insert_ne.
Qed.

Lemma save_config_last_wins_witness :
  exists w1 w2 : world,
    save_config "https://discord.com/api/webhooks/1/old"
      (sample {[ CONFIG_FILE := Undecodable; "notes.txt" := Text "keep" ]}
              (answer 204 "No Content") [])
    = (Returns tt, w1)
    /\ save_config sample_url w1 = (Returns tt, w2)
    /\ load_config w2 = (Returns (JString sample_url), w2)
    /\ files w2
       = files (snd (save_config sample_url
                       (sample {[ CONFIG_FILE := Undecodable; "notes.txt" := Text "keep" ]}
                               (answer 204 "No Content") [])))
    /\ forall path, path <> CONFIG_FILE ->
         files w2 !! path
         = files (sample {[ CONFIG_FILE := Undecodable; "notes.txt" := Text "keep" ]}
                         (answer 204 "No Content") []) !! path.
Proof.
  apply (save_config_last_wins
           (sample {[ CONFIG_FILE := Undecodable; "notes.txt" := Text "keep" ]}
                   (answer 204 "No Content") [])).
  vm_compute. discriminate.
Defined.

(** X6.  The document [save_config] writes is plain: whatever the URL, every
    character of the file is printable ASCII or a line feed (everything else
    is escaped), so the file reads the same in any encoding. *)
Theorem save_config_writes_plain (w : world) (url : string) :
  files w !! CONFIG_FILE <> Some Inaccessible ->
  exists doc : string,
    files (snd (save_config url w)) !! CONFIG_FILE = Some (Text doc)
    /\ all_chars plain_char doc = true.
Proof.
  intros Hf. exists (saved_doc url). rewrite (save_config_eq url w Hf). cbn [snd files].
  split; [apply lookup_insert_eq | apply saved_doc_plain].
Qed.

Lemma save_config_writes_plain_witness :
  exists doc : string,
    files (snd (save_config
                  (sample_url +:+ String (ascii_of_N 233) (String (ascii_of_N 7) EmptyString))
                  (sample ∅ (answer 204 "No Content") []))) !! CONFIG_FILE
    = Some (Text doc)
    /\ all_chars plain_char doc = true.
Proof. apply save_config_writes_plain. vm_compute. discriminate. Defined.

(** ** The handler *)

(** X7.  When the stored [discord_webhook_url] is not a string (a number,
    [null], a list, ...), the handler raises [AttributeError] instead of
    returning an error reply, and makes no POST. *)
Theorem forwarder_bad_stored_value (w : world) (sender message : string) (v : value) :
  fst (load_config w) = Returns v ->
  (forall s, v <> JString s) ->
  forwarder sender message w
  = (raise AttributeError "object has no attribute 'startswith'", w).
Proof.
  intros Hl Hv. rewrite load_config_eq in Hl. simpl in Hl.
  unfold forwarder, bind. rewrite load_config_eq, Hl.
  destruct v; try reflexivity. now destruct (Hv s).
Qed.

Lemma forwarder_bad_stored_value_witness :
  forwarder "Alice" "Hello"
    (sample {[ CONFIG_FILE := Text doc_null_url ]} (answer 204 "No Content") [])
  = (raise AttributeError "object has no attribute 'startswith'",
     sample {[ CONFIG_FILE := Text doc_null_url ]} (answer 204 "No Content") []).
Proof.
  apply (forwarder_bad_stored_value _ "Alice" "Hello" JNull);
    [vm_compute; reflexivity | discriminate].
Defined.

(** X8.  An exception of [load_config] (the configuration file cannot be
    opened, or holds a document that is not an object) passes through the
    handler: the [try] block starts after the load, so no error reply is
    built, and no POST is made. *)
Theorem forwarder_load_failure (w : world) (sender message : string) (e : exc) :
  fst (load_config w) = Raises e ->
  forwarder sender message w = (Raises e, w).
Proof.
  intros Hl. rewrite load_config_eq in Hl. simpl in Hl.
  unfold forwarder, bind. now rewrite load_config_eq, Hl.
Qed.

Lemma forwarder_load_failure_witness :
  forwarder "Alice" "Hello"
    (sample {[ CONFIG_FILE := Inaccessible ]} (answer 204 "No Content") [])
  = (Raises (Exc OSError "Permission denied"),
     sample {[ CONFIG_FILE := Inaccessible ]} (answer 204 "No Content") []).
Proof. apply forwarder_load_failure. vm_compute. reflexivity. Defined.

(** X9.  With a usable URL, every answer whose status is below 400 or at
    least 600 (1xx and 3xx included) counts as delivered: the handler
    returns [forwarded] after its one POST. *)
Theorem forwarder_status_below_400 (w : world) (sender message url : string)
        (r : response) :
  fst (load_config w) = Returns (JString url) ->
  Str.startswith url WEBHOOK_PREFIX = true ->
  remote w url (body_of (now w) sender message) = Answered r ->
  (status_code r < 400 \/ 600 <= status_code r)%N ->
  forwarder sender message w
  = (Returns {[ "status" := "forwarded" ]},
     World (files w) (now w) (remote w) (stdin w) (console_window w) (bind_error w)
           (trace w ++ [EvPost url (body_of (now w) sender message)])).
Proof.
  intros Hl Hp Hr Hs. rewrite load_config_eq in Hl. simpl in Hl.
  rewrite (forwarder_posts sender message w url Hl Hp), Hr.
  now rewrite reply_to_delivered.
Qed.

Lemma forwarder_status_below_400_witness :
  forwarder "Alice" "Hello" (sample configured (answer 101 "Switching Protocols") [])
  = (Returns {[ "status" := "forwarded" ]},
     World configured {| hour := 14; minute := 7 |}
           (fun _ _ => answer 101 "Switching Protocols") [] None None
           [EvPost sample_url (body_of {| hour := 14; minute := 7 |} "Alice" "Hello")]).
Proof.
  apply (forwarder_status_below_400 (sample configured (answer 101 "Switching Protocols") [])
           "Alice" "Hello" sample_url
           {| status_code := 101; reason := "Switching Protocols"; resp_url := sample_url |});
    [vm_compute; reflexivity | vm_compute; reflexivity | reflexivity | simpl; lia].
Defined.

(** ** The prompt *)

Section PromptMore.

#[local] Arguments Str.startswith : simpl never.
#[local] Arguments Str.strip : simpl never.

Lemma prompt_loop_exhausted (lines : list string) :
  forall (rounds : nat) (w : world),
    stdin w = lines ->
    Forall rejected lines ->
    length lines < rounds ->
    prompt_loop rounds w
    = (raise EOFError "EOF when reading a line",
       World (files w) (now w) (remote w) [] (console_window w) (bind_error w)
             (trace w ++ concat (map (fun _ => rejected_round) lines)
                      ++ [EvPrompt "          Enter your Discord webhook URL: "])).
Proof.
  induction lines as [|l lines IH]; intros rounds w Hin Hrej Hlt;
    (destruct rounds as [|rounds]; [simpl in Hlt; lia|]);
    rewrite prompt_loop_step, Hin.
  - destruct w; simpl in *. subst. reflexivity.
  - cbv zeta. apply Forall_cons in Hrej as [Hl Hrej]. unfold rejected in Hl. rewrite Hl.
    rewrite IH; [| reflexivity | exact Hrej | simpl in Hlt; lia].
    simpl. rewrite <- !app_assoc. reflexivity.
Qed.

Lemma prompt_loop_save_fails (skipped : list string) :
  forall (rounds : nat) (w : world) (line : string) (rest : list string),
    stdin w = skipped ++ line :: rest ->
    Forall rejected skipped ->
    accepted line ->
    length skipped < rounds ->
    files w !! CONFIG_FILE = Some Inaccessible ->
    prompt_loop rounds w
    = (raise OSError "Permission denied",
       World (files w) (now w) (remote w) rest (console_window w) (bind_error w)
             (trace w ++ concat (map (fun _ => rejected_round) skipped)
                      ++ [EvPrompt "          Enter your Discord webhook URL: "])).
Proof.
  induction skipped as [|l skipped IH]; intros rounds w line rest Hin Hrej Hacc Hlt Hf;
    (destruct rounds as [|rounds]; [simpl in Hlt; lia|]);
    rewrite prompt_loop_step, Hin; cbv zeta.
  - simpl. unfold accepted in Hacc. rewrite Hacc.
    rewrite save_config_inaccessible by exact Hf. reflexivity.
  - simpl. apply Forall_cons in Hrej as [Hl Hrej]. unfold rejected in Hl. rewrite Hl.
    erewrite IH; [| reflexivity | exact Hrej | exact Hacc | simpl in Hlt; lia | exact Hf].
    simpl. rewrite <- !app_assoc. reflexivity.
Qed.

End PromptMore.

(** X11.  When every line the operator types is turned down and the input
    ends, [prompt_for_webhook] raises [EOFError]; it has asked once per line
    and once more, and has written nothing. *)
Theorem prompt_input_exhausted (w : world) :
  Forall (fun l => Str.startswith (Str.strip l) WEBHOOK_PREFIX = false) (stdin w) ->
  prompt_for_webhook w
  = (raise EOFError "EOF when reading a line",
     World (files w) (now w) (remote w) [] (console_window w) (bind_error w)
           (trace w
            ++ [EvPrint [("WARNING", "yellow");
                         (":  No valid Discord webhook URL found in config.", "light_grey")]]
            ++ concat (map (fun _ => rejected_round) (stdin w))
            ++ [EvPrompt "          Enter your Discord webhook URL: "])).
Proof.
  intros Hrej. rewrite prompt_for_webhook_eq.
  rewrite (prompt_loop_exhausted (stdin w)); [| reflexivity | exact Hrej | simpl; lia].
  simpl. rewrite <- !app_assoc. reflexivity.
Qed.

Lemma prompt_input_exhausted_witness :
  prompt_for_webhook (sample ∅ (answer 204 "No Content") ["notaurl"; EmptyString])
  = (raise EOFError "EOF when reading a line",
     World ∅ {| hour := 14; minute := 7 |} (fun _ _ => answer 204 "No Content")
           [] None None
           [EvPrint [("WARNING", "yellow");
                     (":  No valid Discord webhook URL found in config.", "light_grey")];
            EvPrompt "          Enter your Discord webhook URL: ";
            EvPrint rejected_print;
            EvPrompt "          Enter your Discord webhook URL: ";
            EvPrint rejected_print;
            EvPrompt "          Enter your Discord webhook URL: "]).
Proof.
  apply (prompt_input_exhausted (sample ∅ (answer 204 "No Content") ["notaurl"; EmptyString])).
  repeat constructor.
Defined.

(** X12.  When the configuration file cannot be opened for writing, the
    first line the prompt would take makes [save_config] raise [OSError],
    and [prompt_for_webhook] lets it through: it does not ask again, prints
    no confirmation, and the files are as they were. *)
Theorem prompt_save_failure (w : world) (skipped : list string) (line : string)
        (rest : list string) :
  stdin w = skipped ++ line :: rest ->
  Forall (fun l => Str.startswith (Str.strip l) WEBHOOK_PREFIX = false) skipped ->
  Str.startswith (Str.strip line) WEBHOOK_PREFIX = true ->
  files w !! CONFIG_FILE = Some Inaccessible ->
  prompt_for_webhook w
  = (raise OSError "Permission denied",
     World (files w) (now w) (remote w) rest (console_window w) (bind_error w)
           (trace w
            ++ [EvPrint [("WARNING", "yellow");
                         (":  No valid Discord webhook URL found in config.", "light_grey")]]
            ++ concat (map (fun _ => rejected_round) skipped)
            ++ [EvPrompt "          Enter your Discord webhook URL: "])).
Proof.
  intros Hin Hrej Hacc Hf. rewrite prompt_for_webhook_eq.
  erewrite prompt_loop_save_fails; [| exact Hin | exact Hrej | exact Hacc | | exact Hf].
  - simpl. rewrite <- !app_assoc. reflexivity.
  - simpl. rewrite Hin, length_app. simpl. lia.
Qed.

Lemma prompt_save_failure_witness :
  prompt_for_webhook
    (sample {[ CONFIG_FILE := Inaccessible ]} (answer 204 "No Content") [sample_url; "again"])
  = (raise OSError "Permission denied",
     World {[ CONFIG_FILE := Inaccessible ]} {| hour := 14; minute := 7 |}
           (fun _ _ => answer 204 "No Content") ["again"] None None
           [EvPrint [("WARNING", "yellow");
                     (":  No valid Discord webhook URL found in config.", "light_grey")];
            EvPrompt "          Enter your Discord webhook URL: "]).
Proof.
  exact (prompt_save_failure
           (sample {[ CONFIG_FILE := Inaccessible ]} (answer 204 "No Content")
                   [sample_url; "again"])
           [] sample_url ["again"] eq_refl (List.Forall_nil _) eq_refl eq_refl).
Defined.

Section StripMore.

Lemma lstrip_all_space (s : string) : Str.all_space s = true -> Str.lstrip s = EmptyString.
Proof.
  induction s as [|c s IH]; simpl; [reflexivity|].
  intros H. apply andb_true_iff in H as [Hc Hs]. rewrite Hc. exact (IH Hs).
Qed.

Lemma strip_all_space (s : string) : Str.all_space s = true -> Str.strip s = EmptyString.
Proof. intros H. unfold Str.strip. now rewrite lstrip_all_space. Qed.

(** A blank line is turned down. *)
Lemma blank_rejected (s : string) : Str.all_space s = true -> rejected s.
Proof. intros H. unfold rejected. now rewrite strip_all_space. Qed.

Lemma rstrip_cons_nonspace (c : ascii) (s : string) :
  Chr.isspace c = false -> Str.rstrip (String c s) = String c (Str.rstrip s).
Proof. intros Hc. simpl. rewrite Hc. now destruct (Str.rstrip s). Qed.

Lemma rstrip_app_nonspace (p t : string) :
  all_chars nonspace p = true -> Str.rstrip (p +:+ t) = p +:+ Str.rstrip t.
Proof.
  induction p as [|c p IH]; intros H; [reflexivity|].
  simpl in H. apply andb_true_iff in H as [Hc Hp].
  apply negb_true_iff in Hc.
  change (String c p +:+ t) with (String c (p +:+ t)).
  rewrite rstrip_cons_nonspace by exact Hc. now rewrite IH.
Qed.

Lemma rstrip_idem (s : string) : Str.rstrip (Str.rstrip s) = Str.rstrip s.
Proof.
  induction s as [|c s IH]; [reflexivity|]. simpl.
  destruct (Str.rstrip s) as [|d r] eqn:Hr.
  - destruct (Chr.isspace c) eqn:Hc; [reflexivity|]. simpl. now rewrite Hc.
  - change (Str.rstrip (String c (String d r))) with
      (match Str.rstrip (String d r) with
       | EmptyString => if Chr.isspace c then EmptyString else String c EmptyString
       | String a b => String c (String a b)
       end).
    now rewrite IH.
Qed.

Lemma lstrip_first_nonspace (s : string) :
  (forall c, Str.first_char s = Some c -> Chr.isspace c = false) -> Str.lstrip s = s.
Proof.
  destruct s as [|c s]; [reflexivity|]. intros H. simpl.
  now rewrite (H c eq_refl).
Qed.

(** Stripping twice is stripping once. *)
Lemma strip_idem (s : string) : Str.strip (Str.strip s) = Str.strip s.
Proof.
  unfold Str.strip at 1.
  rewrite lstrip_first_nonspace.
  - unfold Str.strip. apply rstrip_idem.
  - intros c Hc. apply (strip_ends s c). now left.
Qed.

(** The stripped form of a line that starts with the prefix. *)
Lemma strip_prefixed (tail : string) :
  Str.strip (WEBHOOK_PREFIX +:+ tail) = WEBHOOK_PREFIX +:+ Str.rstrip tail.
Proof.
  unfold Str.strip.
  assert (Hl : Str.lstrip (WEBHOOK_PREFIX +:+ tail) = WEBHOOK_PREFIX +:+ tail)
    by reflexivity.
  rewrite Hl. apply rstrip_app_nonspace. reflexivity.
Qed.

End StripMore.

(** X13.  The prompt makes no check beyond the prefix: every line that
    starts with the webhook prefix is taken, whatever follows (nothing at
    all included), and what is saved and returned is the line without its
    trailing white space. *)
Theorem prompt_takes_prefixed_line (w : world) (tail : string) (rest : list string) :
  stdin w = (WEBHOOK_PREFIX +:+ tail) :: rest ->
  files w !! CONFIG_FILE <> Some Inaccessible ->
  exists w' : world,
    prompt_for_webhook w = (Returns (WEBHOOK_PREFIX +:+ Str.rstrip tail), w')
    /\ load_config w' = (Returns (JString (WEBHOOK_PREFIX +:+ Str.rstrip tail)), w')
    /\ stdin w' = rest.
Proof.
  intros Hin Hf.
  assert (Hacc : accepted (WEBHOOK_PREFIX +:+ tail)).
  { unfold accepted. rewrite strip_prefixed. apply startswith_iff. eauto. }
  pose proof (prompt_for_webhook_run w [] _ rest Hin (List.Forall_nil _) Hacc Hf) as Hrun.
  rewrite strip_prefixed in Hrun.
  eexists. split; [exact Hrun|].
  cbn [files stdin]. split; [|reflexivity].
  rewrite load_config_eq. cbn [files]. unfold saved_doc.
  rewrite stored_saved. reflexivity.
Qed.

Lemma prompt_takes_prefixed_line_witness :
  exists w' : world,
    prompt_for_webhook (sample ∅ (answer 204 "No Content") ["https://discord.com/api/webhooks/  "])
    = (Returns "https://discord.com/api/webhooks/", w')
    /\ load_config w' = (Returns (JString "https://discord.com/api/webhooks/"), w')
    /\ stdin w' = [].
Proof.
  refine (prompt_takes_prefixed_line
            (sample ∅ (answer 204 "No Content") ["https://discord.com/api/webhooks/  "])
            "  " [] eq_refl _).
  vm_compute. discriminate.
Defined.

(** X14.  Whatever [prompt_for_webhook] returns starts with the prefix, has
    no white space around it (stripping it again changes nothing), and is
    what [load_config] finds afterwards. *)
Theorem prompt_result_stable (w w' : world) (url : string) :
  prompt_for_webhook w = (Returns url, w') ->
  Str.startswith url WEBHOOK_PREFIX = true
  /\ Str.strip url = url
  /\ load_config w' = (Returns (JString url), w').
Proof.
  intros H. pose proof H as H0.
  rewrite prompt_for_webhook_eq in H0.
  apply prompt_loop_returns in H0 as (skipped & line & Hin & Hrej & Hacc & -> & Hf).
  cbn [stdin files] in Hin, Hf.
  rewrite (prompt_for_webhook_run w skipped line (stdin w') Hin Hrej Hacc Hf) in H.
  inversion H as [Hw]. clear H.
  split; [exact Hacc|]. split; [apply strip_idem|].
  rewrite load_config_eq. cbn [files]. unfold saved_doc. now rewrite stored_saved.
Qed.

Lemma prompt_result_stable_witness :
  Str.startswith sample_url WEBHOOK_PREFIX = true
  /\ Str.strip sample_url = sample_url
  /\ load_config
       (snd (prompt_for_webhook
               (sample ∅ (answer 204 "No Content") ["  " +:+ sample_url +:+ " "])))
     = (Returns (JString sample_url),
        snd (prompt_for_webhook
               (sample ∅ (answer 204 "No Content") ["  " +:+ sample_url +:+ " "]))).
Proof.
  refine (prompt_result_stable
            (sample ∅ (answer 204 "No Content") ["  " +:+ sample_url +:+ " "])
            (snd (prompt_for_webhook
                    (sample ∅ (answer 204 "No Content") ["  " +:+ sample_url +:+ " "])))
            sample_url _).
  vm_compute. reflexivity.
Defined.

(** X15.  Lines that are empty or hold white space only are never taken for
    a URL: the prompt asks again after each of them, and goes on to the
    first line it can take. *)
Theorem prompt_skips_blank_lines (w : world) (blanks : list string) (line : string)
        (rest : list string) :
  stdin w = blanks ++ line :: rest ->
  Forall (fun l => Str.all_space l = true) blanks ->
  Str.startswith (Str.strip line) WEBHOOK_PREFIX = true ->
  files w !! CONFIG_FILE <> Some Inaccessible ->
  exists w' : world,
    prompt_for_webhook w = (Returns (Str.strip line), w')
    /\ stdin w' = rest
    /\ trace w'
       = trace w
         ++ [EvPrint [("WARNING", "yellow");
                      (":  No valid Discord webhook URL found in config.", "light_grey")]]
         ++ concat (map (fun _ => rejected_round) blanks)
         ++ accepted_round (Str.strip line).
Proof.
  intros Hin Hb Hacc Hf.
  assert (Hrej : Forall rejected blanks)
    by (eapply Forall_impl; [exact Hb | exact blank_rejected]).
  eexists. split; [exact (prompt_for_webhook_run w blanks line rest Hin Hrej Hacc Hf)|].
  split; reflexivity.
Qed.

Lemma prompt_skips_blank_lines_witness :
  exists w' : world,
    prompt_for_webhook (sample ∅ (answer 204 "No Content") [EmptyString; "   "; sample_url])
    = (Returns sample_url, w')
    /\ stdin w' = []
    /\ trace w'
       = [EvPrint [("WARNING", "yellow");
                   (":  No valid Discord webhook URL found in config.", "light_grey")];
          EvPrompt "          Enter your Discord webhook URL: ";
          EvPrint rejected_print;
          EvPrompt "          Enter your Discord webhook URL: ";
          EvPrint rejected_print;
          EvPrompt "          Enter your Discord webhook URL: ";
          EvWrite CONFIG_FILE (saved_doc sample_url);
          EvPrint accepted_print].
Proof.
  refine (prompt_skips_blank_lines
            (sample ∅ (answer 204 "No Content") [EmptyString; "   "; sample_url])
            [EmptyString; "   "] sample_url [] eq_refl _ eq_refl _).
  - repeat constructor.
  - vm_compute. discriminate.
Defined.

(** ** Start-up *)

Section StartupMore.

(** What [main] does from the moment the configuration is in place, when
    the listener cannot bind. *)
Lemma serve_fail_run (a : args) (w : world) (msg : string) :
  bind_error w = Some msg ->
  (print (colored_text ["INFO"; ":     Starting chat forwarder..."] ["green"; "light_grey"]) ;;;
   try_finally
     (try_except (uvicorn_run (host a) (port a)) [OSError]
        (fun e => print (colored_text ["ERROR"; ":    "; Py.str e]
                                      ["red"; "light_grey"; "light_grey"])))
     (_ <- input "Press Enter to exit..." ;; ret tt)) w
  = (match stdin w with
     | [] => raise EOFError "EOF when reading a line"
     | _ :: _ => raise SystemExit "1"
     end,
     World (files w) (now w) (remote w) (tail (stdin w)) (console_window w) (Some msg)
           (trace w ++ failed_events msg)).
Proof.
  intros Hb.
  unfold bind, print, emit, try_finally, try_except, uvicorn_run, input, bind, emit, throw,
    lift.
  destruct w as [fs t rm inp cw be tr]; simpl in *. subst be. simpl.
  destruct inp as [|l inp]; simpl; unfold log; simpl; rewrite <- !app_assoc; reflexivity.
Qed.

(** [main] up to the moment the configuration is loaded. *)
Lemma main_load_raises (a : args) (w : world) (e : exc) :
  stored (files w !! CONFIG_FILE) = Raises e ->
  main a w
  = (Raises e,
     World (files w) (now w) (remote w) (stdin w) (console_window w) (bind_error w)
           (trace w ++ minimize_events a w)).
Proof.
  intros Hs. unfold main. unfold bind at 1. rewrite minimize_run.
  unfold bind at 1. rewrite load_config_eq. cbn [files]. rewrite Hs. reflexivity.
Qed.

End StartupMore.

(** X16.  With a stored URL that starts with the prefix, [main] asks for
    nothing and writes nothing: it goes straight to the listener, and when
    the listener is done it waits for Enter. *)
Theorem main_skips_prompt (a : args) (w : world) (u : string) :
  fst (load_config w) = Returns (JString u) ->
  Str.startswith u WEBHOOK_PREFIX = true ->
  bind_error w = None ->
  files (snd (main a w)) = files w
  /\ stdin (snd (main a w)) = tail (stdin w)
  /\ trace (snd (main a w))
     = trace w ++ minimize_events a w
       ++ [EvPrint [("INFO", "green"); (":     Starting chat forwarder...", "light_grey")];
           EvServe (host a) (port a);
           EvPrompt "Press Enter to exit..."].
Proof.
  intros Hl Hp Hb. rewrite load_config_eq in Hl. simpl in Hl.
  rewrite (main_configured a w u Hl Hp Hb). auto.
Qed.

Lemma main_skips_prompt_witness :
  files (snd (main default_args (sample configured (answer 204 "No Content") ["bye"])))
  = configured
  /\ stdin (snd (main default_args (sample configured (answer 204 "No Content") ["bye"])))
     = []
  /\ trace (snd (main default_args (sample configured (answer 204 "No Content") ["bye"])))
     = [EvPrint [("INFO", "green"); (":     Starting chat forwarder...", "light_grey")];
        EvServe "127.0.0.1" 8000;
        EvPrompt "Press Enter to exit..."].
Proof.
  refine (main_skips_prompt default_args
            (sample configured (answer 204 "No Content") ["bye"]) sample_url _ _ _).
  - vm_compute. reflexivity.
  - reflexivity.
  - reflexivity.
Defined.

(** X17.  When the listener cannot bind, [uvicorn.run] logs the error and
    ends with [SystemExit], which [except OSError] does not catch: [main]
    prints no error line of its own and never serves; its [finally] still
    waits for Enter, and then [main] ends with the [SystemExit]. *)
Theorem main_bind_failure (a : args) (w : world) (u msg line : string)
        (rest : list string) :
  fst (load_config w) = Returns (JString u) ->
  Str.startswith u WEBHOOK_PREFIX = true ->
  bind_error w = Some msg ->
  stdin w = line :: rest ->
  main a w
  = (raise SystemExit "1",
     World (files w) (now w) (remote w) rest (console_window w) (Some msg)
           (trace w ++ minimize_events a w
            ++ [EvPrint [("INFO", "green"); (":     Starting chat forwarder...", "light_grey")];
                EvLogError msg;
                EvPrompt "Press Enter to exit..."])).
Proof.
  intros Hl Hp Hb Hin. rewrite load_config_eq in Hl. simpl in Hl.
  unfold main. unfold bind at 1. rewrite minimize_run.
  unfold bind at 1. rewrite load_config_eq. cbn [files]. rewrite Hl.
  unfold bind at 1. rewrite Hp. cbn [negb]. unfold ret at 1.
  rewrite (serve_fail_run a _ msg) by exact Hb.
  cbn [stdin files now remote console_window bind_error trace]. rewrite Hin.
  unfold failed_events. rewrite <- !app_assoc. reflexivity.
Qed.

Lemma main_bind_failure_witness :
  main default_args
    (World configured {| hour := 14; minute := 7 |} (fun _ _ => answer 204 "No Content")
           ["bye"] None (Some "address already in use") [])
  = (raise SystemExit "1",
     World configured {| hour := 14; minute := 7 |} (fun _ _ => answer 204 "No Content")
           [] None (Some "address already in use")
           [EvPrint [("INFO", "green"); (":     Starting chat forwarder...", "light_grey")];
            EvLogError "address already in use";
            EvPrompt "Press Enter to exit..."]).
Proof.
  refine (main_bind_failure default_args
            (World configured {| hour := 14; minute := 7 |}
                   (fun _ _ => answer 204 "No Content")
                   ["bye"] None (Some "address already in use") [])
            sample_url "address already in use" "bye" [] _ _ _ _).
  - vm_compute. reflexivity.
  - reflexivity.
  - reflexivity.
  - reflexivity.
Defined.

(** X18.  When [load_config] raises at start-up (the configuration file
    cannot be opened, or holds a document that is not an object), [main]
    ends with that exception at once: no prompt, no listener, and no wait
    for Enter, the [try] with its [finally] coming later. *)
Theorem main_load_failure (a : args) (w : world) (e : exc) :
  fst (load_config w) = Raises e ->
  main a w
  = (Raises e,
     World (files w) (now w) (remote w) (stdin w) (console_window w) (bind_error w)
           (trace w ++ minimize_events a w)).
Proof.
  intros Hl. rewrite load_config_eq in Hl. simpl in Hl.
  exact (main_load_raises a w e Hl).
Qed.

Lemma main_load_failure_witness :
  main default_args (sample {[ CONFIG_FILE := Text "[]" ]} (answer 204 "No Content") ["x"])
  = (raise AttributeError "object has no attribute 'get'",
     sample {[ CONFIG_FILE := Text "[]" ]} (answer 204 "No Content") ["x"]).
Proof.
  refine (main_load_failure default_args
            (sample {[ CONFIG_FILE := Text "[]" ]} (answer 204 "No Content") ["x"])
            (Exc AttributeError "object has no attribute 'get'") _).
  vm_compute. reflexivity.
Defined.

(** X19.  When there is no usable configuration and the input ends before
    the operator has typed a line the prompt takes, [main] ends with
    [EOFError]: nothing is written, the listener is never started, and
    there is no wait for Enter. *)
Theorem main_prompt_exhausted (a : args) (w : world) (u : string) :
  fst (load_config w) = Returns (JString u) ->
  Str.startswith u WEBHOOK_PREFIX = false ->
  Forall (fun l => Str.startswith (Str.strip l) WEBHOOK_PREFIX = false) (stdin w) ->
  main a w
  = (raise EOFError "EOF when reading a line",
     World (files w) (now w) (remote w) [] (console_window w) (bind_error w)
           (trace w ++ minimize_events a w
            ++ [EvPrint [("WARNING", "yellow");
                         (":  No valid Discord webhook URL found in config.", "light_grey")]]
            ++ concat (map (fun _ => rejected_round) (stdin w))
            ++ [EvPrompt "          Enter your Discord webhook URL: "])).
Proof.
  intros Hl Hp Hrej. rewrite load_config_eq in Hl. simpl in Hl.
  unfold main. unfold bind at 1. rewrite minimize_run.
  unfold bind at 1. rewrite load_config_eq. cbn [files]. rewrite Hl.
  unfold bind at 1. rewrite Hp. cbn [negb].
  unfold bind at 1.
  rewrite prompt_for_webhook_eq.
  rewrite (prompt_loop_exhausted (stdin w)); [| reflexivity | exact Hrej | simpl; lia].
  cbn [files now remote stdin console_window bind_error trace log].
  rewrite <- !app_assoc. reflexivity.
Qed.

Lemma main_prompt_exhausted_witness :
  main default_args (sample ∅ (answer 204 "No Content") ["notaurl"])
  = (raise EOFError "EOF when reading a line",
     World ∅ {| hour := 14; minute := 7 |} (fun _ _ => answer 204 "No Content")
           [] None None
           [EvPrint [("WARNING", "yellow");
                     (":  No valid Discord webhook URL found in config.", "light_grey")];
            EvPrompt "          Enter your Discord webhook URL: ";
            EvPrint rejected_print;
            EvPrompt "          Enter your Discord webhook URL: "]).
Proof.
  refine (main_prompt_exhausted default_args
            (sample ∅ (answer 204 "No Content") ["notaurl"]) EmptyString _ _ _).
  - vm_compute. reflexivity.
  - reflexivity.
  - repeat constructor.
Defined.

(** X20.  The prompt is for the first run only: once a run of [main] has
    taken a line, any later start on the files it left goes straight to the
    listener, whatever its arguments and input. *)
Theorem main_second_run (a a' : args) (w w' : world) (u : string)
        (skipped : list string) (line : string) (rest : list string) :
  fst (load_config w) = Returns (JString u) ->
  Str.startswith u WEBHOOK_PREFIX = false ->
  stdin w = skipped ++ line :: rest ->
  Forall (fun l => Str.startswith (Str.strip l) WEBHOOK_PREFIX = false) skipped ->
  Str.startswith (Str.strip line) WEBHOOK_PREFIX = true ->
  bind_error w = None ->
  files w' = files (snd (main a w)) ->
  bind_error w' = None ->
  fst (load_config w') = Returns (JString (Str.strip line))
  /\ files (snd (main a' w')) = files w'
  /\ trace (snd (main a' w'))
     = trace w' ++ minimize_events a' w'
       ++ [EvPrint [("INFO", "green"); (":     Starting chat forwarder...", "light_grey")];
           EvServe (host a') (port a');
           EvPrompt "Press Enter to exit..."].
Proof.
  intros Hl Hp Hin Hrej Hacc Hb Hf' Hb'. rewrite load_config_eq in Hl. simpl in Hl.
  rewrite (main_first_run a w u skipped line rest Hl Hp Hin Hrej Hacc Hb) in Hf'.
  cbn [snd files] in Hf'.
  assert (Hs : stored (files w' !! CONFIG_FILE) = Returns (JString (Str.strip line))).
  { rewrite Hf'. unfold saved_doc. apply stored_saved. }
  split; [rewrite load_config_eq; exact Hs|].
  rewrite (main_configured a' w' _ Hs Hacc Hb'). auto.
Qed.

Lemma main_second_run_witness :
  fst (load_config
         (snd (main default_args
                 (sample ∅ (answer 204 "No Content") ["notaurl"; sample_url; "bye"]))))
  = Returns (JString sample_url)
  /\ files (snd (main default_args
                   (snd (main default_args
                           (sample ∅ (answer 204 "No Content")
                                   ["notaurl"; sample_url; "bye"])))))
     = files (snd (main default_args
                     (sample ∅ (answer 204 "No Content") ["notaurl"; sample_url; "bye"])))
  /\ trace (snd (main default_args
                   (snd (main default_args
                           (sample ∅ (answer 204 "No Content")
                                   ["notaurl"; sample_url; "bye"])))))
     = trace (snd (main default_args
                     (sample ∅ (answer 204 "No Content") ["notaurl"; sample_url; "bye"])))
       ++ [EvPrint [("INFO", "green"); (":     Starting chat forwarder...", "light_grey")];
           EvServe "127.0.0.1" 8000;
           EvPrompt "Press Enter to exit..."].
Proof.
  refine (main_second_run default_args default_args
            (sample ∅ (answer 204 "No Content") ["notaurl"; sample_url; "bye"])
            (snd (main default_args
                    (sample ∅ (answer 204 "No Content") ["notaurl"; sample_url; "bye"])))
            EmptyString ["notaurl"] sample_url ["bye"] _ _ _ _ _ _ _ _).
  - vm_compute. reflexivity.
  - reflexivity.
  - reflexivity.
  - repeat constructor.
  - reflexivity.
  - reflexivity.
  - reflexivity.
  - vm_compute. reflexivity.
Defined.

(** ** Console text *)

(** X21.  [colored_text] pairs the parts with the colours in order and
    stops at the shorter list: the text it gives is the first parts, as many
    as there are colours, so a part without a colour is dropped. *)
Theorem colored_text_zip (text_parts colors : list string) :
  map fst (colored_text text_parts colors) = take (length colors) text_parts
  /\ map snd (colored_text text_parts colors) = take (length text_parts) colors
  /\ length (colored_text text_parts colors) = min (length text_parts) (length colors).
Proof.
  unfold colored_text. revert colors.
  induction text_parts as [|p ps IH]; intros [|c cs]; simpl; auto.
  destruct (IH cs) as (H1 & H2 & H3). rewrite H1, H2, H3. auto.
Qed.
